(** * Laravel book e-book generator: the document-assembly pipeline

    A shallow embedding of [ebook-generator.py] (class [EbookGenerator]):
    the chapter registry, the HTML assembler (cover, table of contents,
    chapter blocks), the three PDF back ends with their preference order,
    the EPUB path and the orchestrator [generate_all].

    Text is modelled as [string] (a sequence of bytes), the file system
    as a finite map from paths to nodes, and the effects of the program
    (file writes, deletions, calls of the rendering engines, the pandoc
    subprocess, printed messages) as a small state-and-exception monad
    that also records the sequence of observable events. *)

From Stdlib Require Import Ascii String ZArith Lia.
From stdpp Require Import base option list gmap strings.

Local Open Scope stdpp_scope.

(** ** Characters that cannot be written inside a literal *)

Definition dq : string := String "034"%char "".
Definition nl : string := String "010"%char "".

(** [q s] is [s] between double quotes, as in an HTML attribute value. *)
Definition q (s : string) : string := dq +:+ s +:+ dq.

(** ** The methods of Python's [str] the generator uses *)

Module Py.

(** [s.startswith(p)] *)
Fixpoint startswith (p s : string) : bool :=
  match p, s with
  | "", _ => true
  | String a p', String b s' => if Ascii.eqb a b then startswith p' s' else false
  | String _ _, "" => false
  end.

(** [s.endswith(suffix)]: a suffix matches when it matches at the
    position [len(s) - len(suffix)]. *)
Fixpoint drop (n : nat) (s : string) : string :=
  match n, s with
  | 0, _ => s
  | S n', String _ s' => drop n' s'
  | S _, "" => ""
  end.

Definition endswith (s suffix : string) : bool :=
  (String.length suffix <=? String.length s)%nat
  && String.eqb (drop (String.length s - String.length suffix) s) suffix.

(** [s.replace(old, new)]: every non-overlapping occurrence of [old],
    scanning from the left.  [skip] counts the characters of a matched
    occurrence still to be passed over. *)
Fixpoint replace_go (old new : string) (skip : nat) (s : string) : string :=
  match s with
  | "" => match old with "" => new | _ => "" end
  | String c s' =>
      match skip with
      | S k => replace_go old new k s'
      | 0 =>
          if startswith old s
          then new +:+ match old with
                       | "" => String c (replace_go old new 0 s')
                       | _ => replace_go old new (String.length old - 1) s'
                       end
          else String c (replace_go old new 0 s')
      end
  end.

Definition replace (s old new : string) : string := replace_go old new 0 s.

(** [s.split(sep)] for a separator of one character. *)
Fixpoint split (sep : ascii) (s : string) : list string :=
  match s with
  | "" => [""]
  | String c s' =>
      if Ascii.eqb c sep then "" :: split sep s'
      else match split sep s' with
           | w :: ws => String c w :: ws
           | [] => [String c ""]
           end
  end.

(** [l[0]] of a list that [split] returned (never empty). *)
Definition item0 (l : list string) : string := hd "" l.

Definition is_lower (c : ascii) : bool :=
  let n := nat_of_ascii c in (97 <=? n)%nat && (n <=? 122)%nat.
Definition is_upper (c : ascii) : bool :=
  let n := nat_of_ascii c in (65 <=? n)%nat && (n <=? 90)%nat.
Definition to_upper (c : ascii) : ascii :=
  if is_lower c then ascii_of_nat (nat_of_ascii c - 32) else c.
Definition to_lower (c : ascii) : ascii :=
  if is_upper c then ascii_of_nat (nat_of_ascii c + 32) else c.

(** [s.title()]: a cased character is upper-cased when the character
    before it is not cased, and lower-cased otherwise.  Only the ASCII
    letters are cased here; the registry's file names are ASCII. *)
Fixpoint title_go (previous_is_cased : bool) (s : string) : string :=
  match s with
  | "" => ""
  | String c s' =>
      if is_lower c || is_upper c
      then String (if previous_is_cased then to_lower c else to_upper c)
                  (title_go true s')
      else String c (title_go false s')
  end.

Definition title (s : string) : string := title_go false s.

(** [s.rfind(c)] for one character; [None] stands for Python's [-1]. *)
Fixpoint rfind (c : ascii) (s : string) : option nat :=
  match s with
  | "" => None
  | String a s' =>
      match rfind c s' with
      | Some i => Some (S i)
      | None => if Ascii.eqb a c then Some 0 else None
      end
  end.

(** [s[:i]] *)
Fixpoint take (n : nat) (s : string) : string :=
  match n, s with
  | 0, _ => ""
  | S n', String c s' => String c (take n' s')
  | S _, "" => ""
  end.

(** [sep.join(l)] *)
Fixpoint join (sep : string) (l : list string) : string :=
  match l with
  | [] => ""
  | [x] => x
  | x :: l' => x +:+ sep +:+ join sep l'
  end.

End Py.

(** ** Paths ([pathlib.Path]) *)

(** A path is the list of its components; [docs_dir / chapter] appends
    one component (the registry's names hold no separator).  A leading
    empty component stands for the root of an absolute path. *)
Definition Path : Type := list string.

Definition path_join (p : Path) (name : string) : Path := p ++ [name].
Infix "//" := path_join (at level 40, left associativity).

(** [str(p)] *)
Definition path_str (p : Path) : string := Py.join "/" p.

(** [p.name]: the final component. *)
Definition path_name (p : Path) : string := List.last p "".

(** [p.stem]: the final component without its last suffix.  A dot in
    first or in last position does not start a suffix. *)
Definition path_stem (p : Path) : string :=
  let name := path_name p in
  match Py.rfind "." name with
  | Some i =>
      if (0 <? i)%nat && (i <? String.length name - 1)%nat
      then Py.take i name else name
  | None => name
  end.

(** ** The file system *)

(** What a path may lead to: a regular text file with its content, or
    a directory (something that exists and cannot be opened as a file). *)
Inductive node : Type :=
| File (content : string)
| Dir.

Abbreviation FS := (gmap Path node).

Definition file_content (d : FS) (p : Path) : string :=
  match d !! p with
  | Some (File c) => c
  | _ => ""
  end.

(** ** Exceptions, messages and events *)

Inductive exn : Type :=
| ImportError (msg : string)
| FileNotFoundError (filename : string)
| IsADirectoryError (filename : string)
| CalledProcessError (returncode : Z) (cmd : list string)
| RenderError (msg : string).        (* any other [Exception] of an engine *)

(** The lines the program prints. *)
Inductive Msg : Type :=
| MsgWarningNotFound (markdown_file : Path)
| MsgErrorRunningPandoc (e : exn)
| MsgPandocNotFound
| MsgGenerating
| MsgHtmlGenerated (html_file : Path)
| MsgPdfGenerated (backend : string) (pdf_file : Path)
| MsgPdfFailed (e : exn)
| MsgEpubGenerated (epub_file : Path)
| MsgEpubFailed (e : exn)
| MsgComplete.

(** What a run does to the outside, in order.  A subprocess event keeps
    the file system the child process finds when it starts. *)
Inductive Event : Type :=
| EvPrint (m : Msg)
| EvOpenW (p : Path)
| EvWrite (p : Path) (data : string)
| EvUnlink (p : Path)
| EvWeasyprint (html css : string) (output_file : Path)
| EvPdfkit (html : string) (output_file : Path)
| EvSubprocess (cmd : list string) (disk : FS).

(** ** The monad of the program: state, exceptions and a log *)

Inductive Res (A : Type) : Type :=
| Ok (a : A)
| Raise (e : exn).
Arguments Ok {A} a.
Arguments Raise {A} e.

Definition M (A : Type) : Type := FS -> Res A * FS * list Event.

Definition ret {A} (a : A) : M A := fun d => (Ok a, d, []).

Definition bind {A B} (m : M A) (f : A -> M B) : M B :=
  fun d =>
    match m d with
    | (Ok a, d1, es1) =>
        match f a d1 with
        | (r, d2, es2) => (r, d2, es1 ++ es2)
        end
    | (Raise e, d1, es1) => (Raise e, d1, es1)
    end.

Definition raise {A} (e : exn) : M A := fun d => (Raise e, d, []).

(** [try: m  except Exception as e: h e] *)
Definition try_except {A} (m : M A) (h : exn -> M A) : M A :=
  fun d =>
    match m d with
    | (Ok a, d1, es1) => (Ok a, d1, es1)
    | (Raise e, d1, es1) =>
        match h e d1 with
        | (r, d2, es2) => (r, d2, es1 ++ es2)
        end
    end.

Declare Scope prog_scope.
Delimit Scope prog_scope with prog.
Bind Scope prog_scope with M.
Notation "x <- m ;; k" := (bind m (fun x => k))
  (at level 100, m at next level, k at level 200, right associativity) : prog_scope.
Notation "m ;; k" := (bind m (fun _ => k))
  (at level 100, k at level 200, right associativity) : prog_scope.
Local Open Scope prog_scope.

(** [for x in l: acc = body acc x] *)
Fixpoint for_each {A S} (l : list A) (body : S -> A -> M S) (acc : S) : M S :=
  match l with
  | [] => ret acc
  | x :: l' => acc' <- body acc x ;; for_each l' body acc'
  end.

(** The result, the final file system and the events of a run. *)
Definition result {A} (o : Res A * FS * list Event) : Res A := o.1.1.
Definition disk_after {A} (o : Res A * FS * list Event) : FS := o.1.2.
Definition events {A} (o : Res A * FS * list Event) : list Event := o.2.

(** *** Primitive operations *)

Definition print (m : Msg) : M unit := fun d => (Ok tt, d, [EvPrint m]).

(** [p.exists()] *)
Definition path_exists (p : Path) : M bool :=
  fun d => (Ok (bool_decide (is_Some (d !! p))), d, []).

(** [with open(p, 'r', encoding='utf-8') as f: f.read()] *)
Definition read_text (p : Path) : M string :=
  fun d =>
    match d !! p with
    | Some (File c) => (Ok c, d, [])
    | Some Dir => (Raise (IsADirectoryError (path_str p)), d, [])
    | None => (Raise (FileNotFoundError (path_str p)), d, [])
    end.

(** [open(p, 'w', encoding='utf-8')]: creates the file or empties it. *)
Definition open_w (p : Path) : M unit :=
  fun d =>
    match d !! p with
    | Some Dir => (Raise (IsADirectoryError (path_str p)), d, [])
    | _ => (Ok tt, <[p := File ""]> d, [EvOpenW p])
    end.

(** [f.write(data)] on the file opened at [p]: the data goes to the end
    of the file.  (Python buffers it until the file is closed; the model
    writes through, which nothing can tell apart unless the file is read
    back while it is still open.) *)
Definition fwrite (p : Path) (data : string) : M unit :=
  fun d => (Ok tt, <[p := File (file_content d p +:+ data)]> d, [EvWrite p data]).

(** [p.unlink()] *)
Definition unlink (p : Path) : M unit :=
  fun d =>
    match d !! p with
    | Some (File _) => (Ok tt, delete p d, [EvUnlink p])
    | Some Dir => (Raise (IsADirectoryError (path_str p)), d, [])
    | None => (Raise (FileNotFoundError (path_str p)), d, [])
    end.

(** ** The collaborators of the generator *)

(** Everything the program takes from outside its own code: the two
    import-time flags, the Markdown engine (called with the fixed list of
    four extensions), the formatted date of the clock
    ([datetime.now().strftime('%B %d, %Y')]), the two in-process PDF
    engines ([None]: the PDF was written; [Some e]: the engine raised
    [e]) and [subprocess.run] ([None]: the executable was not found;
    [Some rc]: it exited with code [rc]).  The file system of this model
    holds what the generator reads, writes and deletes itself; what an
    engine or the child process writes is seen as an event. *)
Record Env : Type := {
  WEASYPRINT_AVAILABLE : bool;
  PDFKIT_AVAILABLE : bool;
  markdown_markdown : string -> string;
  strftime_now : string;
  HTML_write_pdf : string -> string -> Path -> option exn;
  pdfkit_from_string : string -> Path -> option exn;
  subprocess_run : list string -> FS -> option Z
}.

(** ** The generator object *)

Record EbookGenerator : Type := {
  docs_dir : Path;
  output_dir : Path;
  chapters : list string;
  css : string
}.

(** The chapter order of [__init__]. *)
Definition registry : list string :=
  [ "01-introduction.md"; "02-installation.md"; "03-routing.md";
    "04-controllers.md"; "05-blade.md"; "06-eloquent.md";
    "07-migrations.md"; "08-middleware.md"; "09-auth.md";
    "10-events-queues.md"; "11-testing.md"; "12-deployment.md";
    "13-caching.md"; "14-performance.md"; "15-microservices.md" ].

(** [EbookGenerator(docs_dir, output_dir)]; the style sheet literal of
    [__init__] is an opaque asset, passed in as [stylesheet]. *)
Definition EbookGenerator_init (stylesheet : string) (docs_dir output_dir : Path)
  : EbookGenerator :=
  {| docs_dir := docs_dir; output_dir := output_dir;
     chapters := registry; css := stylesheet |}.

(** ** Table of contents *)

Definition toc_open : string :=
  nl +:+
  "        <div class=" +:+ q "toc" +:+ ">" +:+ nl +:+
  "            <h1>Table of Contents</h1>" +:+ nl +:+
  "            <ul>" +:+ nl +:+
  "        ".

Definition toc_close : string :=
  nl +:+
  "            </ul>" +:+ nl +:+
  "        </div>" +:+ nl +:+
  "        ".

(** [chapter.replace('.md', '').replace('-', ' ').title()] *)
Definition chapter_name (chapter : string) : string :=
  Py.title (Py.replace (Py.replace chapter ".md" "") "-" " ").

(** [chapter.split('-')[0]] *)
Definition chapter_number (chapter : string) : string :=
  Py.item0 (Py.split "-" chapter).

(** The anchor the link of a chapter points to: what [generate_toc]
    puts after the [#] of the [href]. *)
Definition toc_anchor (chapter : string) : string := chapter.

(** [f'<li><a href="#{chapter}">{chapter_number}. {chapter_name}</a></li>'] *)
Definition toc_entry (chapter : string) : string :=
  "<li><a href=" +:+ q ("#" +:+ toc_anchor chapter) +:+ ">" +:+
  chapter_number chapter +:+ ". " +:+ chapter_name chapter +:+ "</a></li>".

Definition generate_toc (self : EbookGenerator) : string :=
  let toc_html := toc_open in
  let toc_html :=
    fold_left
      (fun toc_html chapter =>
         if Py.endswith chapter ".md"
         then toc_html +:+ toc_entry chapter
         else toc_html)
      (chapters self) toc_html in
  toc_html +:+ toc_close.

(** ** Cover *)

Definition generate_cover (E : Env) : string :=
  nl +:+
  "        <div class=" +:+ q "cover" +:+ ">" +:+ nl +:+
  "            <h1>Laravel: From Zero to Production</h1>" +:+ nl +:+
  "            <div class=" +:+ q "subtitle" +:+
  ">A comprehensive guide to building modern web applications with Laravel</div>" +:+ nl +:+
  "            <div class=" +:+ q "author" +:+ ">By Laravel Book Team</div>" +:+ nl +:+
  "            <div class=" +:+ q "date" +:+ ">Generated on " +:+ strftime_now E +:+ "</div>" +:+ nl +:+
  "        </div>" +:+ nl +:+
  "        ".

(** ** Chapter blocks *)

(** The id of a chapter block: [markdown_file.stem]. *)
Definition chapter_id (markdown_file : Path) : string := path_stem markdown_file.

(** [f'<div class="chapter" id="{markdown_file.stem}">{html}</div>'] *)
Definition chapter_block (markdown_file : Path) (html : string) : string :=
  "<div class=" +:+ q "chapter" +:+ " id=" +:+ q (chapter_id markdown_file) +:+ ">" +:+
  html +:+ "</div>".

Definition convert_markdown_to_html (E : Env) (markdown_file : Path) : M string :=
  found <- path_exists markdown_file ;;
  if negb found then
    print (MsgWarningNotFound markdown_file) ;;
    ret ""
  else
    content <- read_text markdown_file ;;
    let html := markdown_markdown E content in
    ret (chapter_block markdown_file html).

(** ** The whole HTML document *)

Definition html_open (self : EbookGenerator) : string :=
  nl +:+
  "        <!DOCTYPE html>" +:+ nl +:+
  "        <html lang=" +:+ q "en" +:+ ">" +:+ nl +:+
  "        <head>" +:+ nl +:+
  "            <meta charset=" +:+ q "UTF-8" +:+ ">" +:+ nl +:+
  "            <meta name=" +:+ q "viewport" +:+ " content=" +:+
  q "width=device-width, initial-scale=1.0" +:+ ">" +:+ nl +:+
  "            <title>Laravel: From Zero to Production</title>" +:+ nl +:+
  "            <style>" +:+ css self +:+ "</style>" +:+ nl +:+
  "        </head>" +:+ nl +:+
  "        <body>" +:+ nl +:+
  "        ".

Definition html_close : string :=
  nl +:+
  "        </body>" +:+ nl +:+
  "        </html>" +:+ nl +:+
  "        ".

Definition generate_html (E : Env) (self : EbookGenerator) : M string :=
  let html_content := html_open self in
  let html_content := html_content +:+ generate_cover E in
  let html_content := html_content +:+ generate_toc self in
  html_content <-
    for_each (chapters self)
      (fun html_content chapter =>
         let chapter_file := docs_dir self // chapter in
         found <- path_exists chapter_file ;;
         if found then
           block <- convert_markdown_to_html E chapter_file ;;
           ret (html_content +:+ block)
         else ret html_content)
      html_content ;;
  ret (html_content +:+ html_close).

(** ** The in-process PDF engines *)

(** The call of an engine: the event, then its outcome. *)
Definition call_engine (ev : Event) (outcome : option exn) : M unit :=
  fun d =>
    match outcome with
    | None => (Ok tt, d, [ev])
    | Some e => (Raise e, d, [ev])
    end.

Definition generate_pdf_weasyprint (E : Env) (self : EbookGenerator)
    (html_content : string) (output_file : Path) : M unit :=
  if negb (WEASYPRINT_AVAILABLE E) then
    raise (ImportError "WeasyPrint not available")
  else
    call_engine (EvWeasyprint html_content (css self) output_file)
                (HTML_write_pdf E html_content (css self) output_file).

Definition generate_pdf_pdfkit (E : Env) (self : EbookGenerator)
    (html_content : string) (output_file : Path) : M unit :=
  if negb (PDFKIT_AVAILABLE E) then
    raise (ImportError "pdfkit not available")
  else
    call_engine (EvPdfkit html_content output_file)
                (pdfkit_from_string E html_content output_file).

(** ** The pandoc paths *)

(** [subprocess.run(cmd, check=True)] *)
Definition subprocess_run_check (E : Env) (cmd : list string) : M unit :=
  fun d =>
    match subprocess_run E cmd d with
    | None => (Raise (FileNotFoundError (hd "" cmd)), d, [EvSubprocess cmd d])
    | Some rc =>
        if (rc =? 0)%Z then (Ok tt, d, [EvSubprocess cmd d])
        else (Raise (CalledProcessError rc cmd), d, [EvSubprocess cmd d])
    end.

(** The two [except] clauses shared by [generate_pdf_pandoc] and
    [generate_epub]; any other exception passes through them. *)
Definition pandoc_except {A} (e : exn) : M A :=
  match e with
  | CalledProcessError _ _ => print (MsgErrorRunningPandoc e) ;; raise e
  | FileNotFoundError _ => print MsgPandocNotFound ;; raise e
  | _ => raise e
  end.

Definition combined_md_path (self : EbookGenerator) : Path :=
  output_dir self // "combined.md".

Definition title_line : string :=
  "# Laravel: From Zero to Production" +:+ nl +:+ nl.

Definition date_line (E : Env) : string :=
  "*Generated on " +:+ strftime_now E +:+ "*" +:+ nl +:+ nl.

(** [f"{chapter_number}. [{chapter_name}](#{chapter.replace('.md', '')})\n"] *)
Definition markdown_toc_line (chapter : string) : string :=
  chapter_number chapter +:+ ". [" +:+ chapter_name chapter +:+ "](#" +:+
  Py.replace chapter ".md" "" +:+ ")" +:+ nl.

(** The loop that copies the chapters into the combined file [f]; it is
    the same text in [generate_pdf_pandoc] and in [generate_epub]. *)
Definition write_chapters (self : EbookGenerator) (f : Path) : M unit :=
  for_each (chapters self)
    (fun _ chapter =>
       let chapter_file := docs_dir self // chapter in
       found <- path_exists chapter_file ;;
       if found then
         fwrite f (nl +:+ "# " +:+ chapter_name chapter +:+ nl +:+ nl) ;;
         content <- read_text chapter_file ;;
         fwrite f content ;;
         fwrite f (nl +:+ nl +:+ "---" +:+ nl +:+ nl)
       else ret tt)
    tt.

Definition pandoc_pdf_cmd (combined_md output_file : Path) : list string :=
  [ "pandoc"; path_str combined_md; "-o"; path_str output_file;
    "--pdf-engine=xelatex"; "--toc"; "--number-sections";
    "--variable=geometry:margin=2cm"; "--variable=fontsize:11pt";
    "--variable=mainfont:Segoe UI"; "--variable=monofont:Courier New" ].

Definition generate_pdf_pandoc (E : Env) (self : EbookGenerator)
    (output_file : Path) : M unit :=
  try_except
    (let combined_md := combined_md_path self in
     open_w combined_md ;;
     fwrite combined_md title_line ;;
     fwrite combined_md (date_line E) ;;
     fwrite combined_md ("## Table of Contents" +:+ nl +:+ nl) ;;
     for_each (chapters self)
       (fun _ chapter =>
          if Py.endswith chapter ".md"
          then fwrite combined_md (markdown_toc_line chapter)
          else ret tt)
       tt ;;
     fwrite combined_md (nl +:+ "---" +:+ nl +:+ nl) ;;
     write_chapters self combined_md ;;
     subprocess_run_check E (pandoc_pdf_cmd combined_md output_file) ;;
     unlink combined_md)
    pandoc_except.

Definition pandoc_epub_cmd (combined_md output_file : Path) (cover : bool)
  : list string :=
  [ "pandoc"; path_str combined_md; "-o"; path_str output_file;
    "--toc"; "--number-sections";
    if cover then "--epub-cover-image=cover.png" else "" ].

Definition generate_epub (E : Env) (self : EbookGenerator)
    (output_file : Path) : M unit :=
  try_except
    (let combined_md := combined_md_path self in
     open_w combined_md ;;
     fwrite combined_md title_line ;;
     fwrite combined_md (date_line E) ;;
     write_chapters self combined_md ;;
     cover <- path_exists (output_dir self // "cover.png") ;;
     subprocess_run_check E (pandoc_epub_cmd combined_md output_file cover) ;;
     unlink combined_md)
    pandoc_except.

(** ** The orchestrator *)

(** The choice of the PDF back end: the body of the [try] of
    [generate_all] (the same choice stands in [main] for [--format pdf]). *)
Definition pdf_attempt (E : Env) (self : EbookGenerator)
    (html_content : string) (pdf_file : Path) : M unit :=
  if WEASYPRINT_AVAILABLE E then
    generate_pdf_weasyprint E self html_content pdf_file ;;
    print (MsgPdfGenerated "WeasyPrint" pdf_file)
  else if PDFKIT_AVAILABLE E then
    generate_pdf_pdfkit E self html_content pdf_file ;;
    print (MsgPdfGenerated "pdfkit" pdf_file)
  else
    generate_pdf_pandoc E self pdf_file ;;
    print (MsgPdfGenerated "pandoc" pdf_file).

(** The first stage: assemble the document and write the HTML file. *)
Definition html_stage (E : Env) (self : EbookGenerator) : M string :=
  html_content <- generate_html E self ;;
  let html_file := output_dir self // "laravel-book.html" in
  open_w html_file ;;
  fwrite html_file html_content ;;
  print (MsgHtmlGenerated html_file) ;;
  ret html_content.

Definition pdf_stage (E : Env) (self : EbookGenerator) (html_content : string)
  : M unit :=
  let pdf_file := output_dir self // "laravel-book.pdf" in
  try_except (pdf_attempt E self html_content pdf_file)
             (fun e => print (MsgPdfFailed e)).

Definition epub_stage (E : Env) (self : EbookGenerator) : M unit :=
  let epub_file := output_dir self // "laravel-book.epub" in
  try_except (generate_epub E self epub_file ;;
              print (MsgEpubGenerated epub_file))
             (fun e => print (MsgEpubFailed e)).

Definition generate_all (E : Env) (self : EbookGenerator) : M unit :=
  print MsgGenerating ;;
  html_content <- html_stage E self ;;
  pdf_stage E self html_content ;;
  epub_stage E self ;;
  print MsgComplete.

(** ** Vocabulary of the properties *)

(** [''.join(l)] *)
Definition cat (l : list string) : string := foldr String.append "" l.

(** The chapter has a source node in the docs directory of [self]. *)
Definition present (self : EbookGenerator) (d : FS) (chapter : string) : bool :=
  bool_decide (is_Some (d !! (docs_dir self // chapter))).

(** The chapter blocks [generate_html] appends, or the exception of the
    first chapter that exists and cannot be read. *)
Fixpoint collect_blocks (E : Env) (self : EbookGenerator) (d : FS)
    (l : list string) : Res (list string) :=
  match l with
  | [] => Ok []
  | chapter :: l' =>
      let chapter_file := docs_dir self // chapter in
      match d !! chapter_file with
      | None => collect_blocks E self d l'
      | Some Dir => Raise (IsADirectoryError (path_str chapter_file))
      | Some (File content) =>
          match collect_blocks E self d l' with
          | Ok blocks =>
              Ok (chapter_block chapter_file (markdown_markdown E content) :: blocks)
          | Raise e => Raise e
          end
      end
  end.


(** No chapter of the registry is a directory. *)
Definition chapters_readable (self : EbookGenerator) (d : FS) : Prop :=
  forall chapter, chapter ∈ chapters self ->
    d !! (docs_dir self // chapter) <> Some Dir.

(** The combined file can be written and every chapter can be read. *)
Definition pandoc_ready (self : EbookGenerator) (d : FS) : Prop :=
  d !! combined_md_path self <> Some Dir /\ chapters_readable self d.

(** The cover with the date taken out. *)
Definition cover_before_date : string :=
  nl +:+
  "        <div class=" +:+ q "cover" +:+ ">" +:+ nl +:+
  "            <h1>Laravel: From Zero to Production</h1>" +:+ nl +:+
  "            <div class=" +:+ q "subtitle" +:+
  ">A comprehensive guide to building modern web applications with Laravel</div>" +:+ nl +:+
  "            <div class=" +:+ q "author" +:+ ">By Laravel Book Team</div>" +:+ nl +:+
  "            <div class=" +:+ q "date" +:+ ">Generated on ".

Definition cover_after_date : string :=
  "</div>" +:+ nl +:+
  "        </div>" +:+ nl +:+
  "        ".

(** An environment that differs from [E] in the date of the clock only. *)
Definition at_date (E : Env) (date : string) : Env :=
  {| WEASYPRINT_AVAILABLE := WEASYPRINT_AVAILABLE E;
     PDFKIT_AVAILABLE := PDFKIT_AVAILABLE E;
     markdown_markdown := markdown_markdown E;
     strftime_now := date;
     HTML_write_pdf := HTML_write_pdf E;
     pdfkit_from_string := pdfkit_from_string E;
     subprocess_run := subprocess_run E |}.

(** *** Back ends *)

Inductive Backend : Type := WeasyPrint | Pdfkit | Pandoc.

(** The back end an event belongs to, if it is the call of one. *)
Definition backend_of_event (ev : Event) : option Backend :=
  match ev with
  | EvWeasyprint _ _ _ => Some WeasyPrint
  | EvPdfkit _ _ => Some Pdfkit
  | EvSubprocess _ _ => Some Pandoc
  | _ => None
  end.

Definition backends_invoked (es : list Event) : list Backend :=
  omap backend_of_event es.



(** *** A Hoare logic for the monad *)

(** [hoare P m Q]: from a file system that satisfies [P], the run of [m]
    ends (it always does) with a result, a file system and events that
    satisfy [Q]. *)
Definition hoare {A : Type} (P : FS -> Prop) (m : M A)
    (Q : Res A -> FS -> list Event -> Prop) : Prop :=
  forall d, P d -> Q (result (m d)) (disk_after (m d)) (events (m d)).

(** The path leads to a regular file. *)
Definition is_file (d : FS) (p : Path) : Prop :=
  exists content, d !! p = Some (File content).

(** No back end is called in these events. *)
Definition quiet (es : list Event) : Prop := backends_invoked es = [].

(** *** Concrete inputs *)

(** An environment with a toy Markdown engine, engines that succeed and
    a pandoc that exits with [rc] ([None]: pandoc is not installed). *)
Definition toy_env (weasyprint pdfkit : bool) (rc : option Z) : Env :=
  {| WEASYPRINT_AVAILABLE := weasyprint;
     PDFKIT_AVAILABLE := pdfkit;
     markdown_markdown := fun s => "<p>" +:+ s +:+ "</p>";
     strftime_now := "March 03, 2024";
     HTML_write_pdf := fun _ _ _ => None;
     pdfkit_from_string := fun _ _ => Some (RenderError "wkhtmltopdf failed");
     subprocess_run := fun _ _ => rc |}.

(** The generator of the command line's defaults. *)
Definition default_generator : EbookGenerator :=
  EbookGenerator_init "body { color: #333; }" ["docs"] ["ebook"].

(** The registry of two chapters of the end-to-end scenario, of which
    only the first has a source file. *)
Definition scenario_generator : EbookGenerator :=
  {| docs_dir := ["docs"]; output_dir := ["ebook"];
     chapters := ["01-introduction.md"; "02-installation.md"];
     css := "body { color: #333; }" |}.

Definition scenario_disk : FS :=
  {[ ["docs"; "01-introduction.md"] := File ("# Intro" +:+ nl +:+ "Hello") ]}.

(** The table-of-contents entry the scenario expects for its first
    chapter: text "1. Introduction", target "#01-introduction". *)
Definition scenario_expected_entry : string :=
  "<li><a href=" +:+ q "#01-introduction" +:+ ">1. Introduction</a></li>".

(** ** The command line *)




(** ** Vocabulary of the further properties *)

(** What the loop over the chapters writes for one chapter: the heading,
    the content of the source file and the rule. *)
Definition chapter_section (self : EbookGenerator) (d : FS) (chapter : string)
  : string :=
  (nl +:+ "# " +:+ chapter_name chapter +:+ nl +:+ nl) +:+
  file_content d (docs_dir self // chapter) +:+
  (nl +:+ nl +:+ "---" +:+ nl +:+ nl).

Definition chapter_sections (self : EbookGenerator) (d : FS) (l : list string)
  : string :=
  cat (map (chapter_section self d) (List.filter (present self d) l)).

(** The textual table of contents of the PDF path. *)
Definition markdown_toc (l : list string) : string :=
  cat (map markdown_toc_line (List.filter (fun c => Py.endswith c ".md") l)).

(** The combined Markdown documents of the two pandoc paths. *)
Definition epub_combined (E : Env) (self : EbookGenerator) (d : FS) : string :=
  title_line +:+ date_line E +:+ chapter_sections self d (chapters self).

Definition pdf_combined (E : Env) (self : EbookGenerator) (d : FS) : string :=
  title_line +:+ date_line E +:+ ("## Table of Contents" +:+ nl +:+ nl) +:+
  markdown_toc (chapters self) +:+ (nl +:+ "---" +:+ nl +:+ nl) +:+
  chapter_sections self d (chapters self).

(** The character does not occur in the string. *)
Fixpoint without (c : ascii) (s : string) : Prop :=
  match s with
  | "" => True
  | String a s' => a <> c /\ without c s'
  end.

(** [m] maintains [I], whatever its result. *)
Definition preserves {A : Type} (I : FS -> Prop) (m : M A) : Prop :=
  hoare I m (fun _ d _ => I d).

(** [I] is not affected by what happens at the path [f]. *)
Definition away_from (f : Path) (I : FS -> Prop) : Prop :=
  (forall d content, I d -> I (<[f := File content]> d))
  /\ (forall d, I d -> I (delete f d)).

(** A disk for the examples: two chapters of the registry have a source. *)
Definition two_chapter_disk : FS :=
  {[ ["docs"; "01-introduction.md"] := File ("# Intro" +:+ nl +:+ "Hello");
     ["docs"; "03-routing.md"] := File "Routes" ]}.

(** An environment where pandoc fails on the PDF command (the one with
    a PDF engine among its arguments) and succeeds on any other. *)
Definition pdf_failing_env : Env :=
  {| WEASYPRINT_AVAILABLE := false;
     PDFKIT_AVAILABLE := false;
     markdown_markdown := fun s => "<p>" +:+ s +:+ "</p>";
     strftime_now := "March 03, 2024";
     HTML_write_pdf := fun _ _ _ => None;
     pdfkit_from_string := fun _ _ => None;
     subprocess_run := fun cmd _ =>
       if bool_decide ("--pdf-engine=xelatex" ∈ cmd) then Some 1%Z else Some 0%Z |}.

(** The value of a result, the empty string for an exception. *)
Definition value_of (r : Res string) : string :=
  match r with
  | Ok s => s
  | Raise _ => ""
  end.

(** * Properties *)

(** ** The string and path methods on the names of the registry *)

Example replace_md : Py.replace "10-events-queues.md" ".md" "" = "10-events-queues".
Proof. reflexivity. Qed.
Example replace_hyphen : Py.replace "10-events-queues" "-" " " = "10 events queues".
Proof. reflexivity. Qed.
Example replace_empty_old : Py.replace "abc" "" "x" = "xaxbxcx".
Proof. reflexivity. Qed.
Example replace_overlap : Py.replace "aaa" "aa" "b" = "ba".
Proof. reflexivity. Qed.
Example title_ex : Py.title "10 events queues" = "10 Events Queues".
Proof. reflexivity. Qed.
Example title_mixed : Py.title "heLLo wORLD x1y" = "Hello World X1Y".
Proof. reflexivity. Qed.
Example split_ex : Py.split "-" "10-events-queues.md" = ["10"; "events"; "queues.md"].
Proof. reflexivity. Qed.
Example endswith_ex : Py.endswith "09-auth.md" ".md" = true /\ Py.endswith "md" ".md" = false.
Proof. split; reflexivity. Qed.
Example stem_ex : path_stem (["docs"] // "01-introduction.md") = "01-introduction".
Proof. reflexivity. Qed.
Example stem_hidden : path_stem ["docs"; ".profile"] = ".profile".
Proof. reflexivity. Qed.
Example stem_two_suffixes : path_stem ["a.tar.gz"] = "a.tar".
Proof. reflexivity. Qed.

(** ** Strings *)

Lemma append_cons (x : ascii) (a b : string) :
  String x a +:+ b = String x (a +:+ b).
Proof. reflexivity. Qed.

Lemma append_assoc (a b c : string) : (a +:+ b) +:+ c = a +:+ (b +:+ c).
Proof.
  induction a as [|x a IH]; [reflexivity|].
  by rewrite !append_cons, IH.
Qed.

Lemma append_empty_r (a : string) : a +:+ "" = a.
Proof.
  induction a as [|x a IH]; [reflexivity|].
  by rewrite append_cons, IH.
Qed.

Lemma cat_cons (x : string) (l : list string) : cat (x :: l) = x +:+ cat l.
Proof. reflexivity. Qed.

Lemma cat_app (l1 l2 : list string) : cat (l1 ++ l2) = cat l1 +:+ cat l2.
Proof.
  induction l1 as [|x l1 IH]; [reflexivity|].
  rewrite <- app_comm_cons, !cat_cons, IH. by rewrite append_assoc.
Qed.

Lemma length_append (a b : string) :
  String.length (a +:+ b) = String.length a + String.length b.
Proof.
  induction a as [|x a IH]; [reflexivity|].
  rewrite append_cons. cbn [String.length]. by rewrite IH.
Qed.

(** ** Paths *)

Lemma path_name_join (p : Path) (name : string) : path_name (p // name) = name.
Proof. unfold path_name, path_join. apply last_last. Qed.

Lemma path_join_inj (p1 p2 : Path) (n1 n2 : string) :
  p1 // n1 = p2 // n2 -> p1 = p2 /\ n1 = n2.
Proof. unfold path_join. intros H. by apply app_inj_tail in H. Qed.

(** ** The primitives, run *)

Lemma path_exists_some (p : Path) (d : FS) (n : node) :
  d !! p = Some n -> path_exists p d = (Ok true, d, []).
Proof.
  intros H. unfold path_exists. rewrite bool_decide_eq_true_2; [done|].
  rewrite H. by eexists.
Qed.

Lemma path_exists_none (p : Path) (d : FS) :
  d !! p = None -> path_exists p d = (Ok false, d, []).
Proof.
  intros H. unfold path_exists. rewrite bool_decide_eq_false_2; [done|].
  rewrite H. by intros [? ?].
Qed.

Lemma bind_path_exists {B : Type} (p : Path) (f : bool -> M B) (d : FS) :
  (found <- path_exists p ;; f found) d = f (bool_decide (is_Some (d !! p))) d.
Proof.
  unfold bind, path_exists.
  by destruct (f (bool_decide (is_Some (d !! p))) d) as [[r d2] es2].
Qed.

Lemma bind_ret {A B : Type} (a : A) (f : A -> M B) (d : FS) :
  (x <- ret a ;; f x) d = f a d.
Proof. unfold bind, ret. by destruct (f a d) as [[r d2] es2]. Qed.

(** ** The table of contents is one entry per Markdown name *)



(** ** The assembled document *)

Lemma chapter_loop_run (E : Env) (self : EbookGenerator) (d : FS)
    (l : list string) (acc : string) :
  for_each l
    (fun html_content chapter =>
       let chapter_file := docs_dir self // chapter in
       found <- path_exists chapter_file ;;
       if found then
         block <- convert_markdown_to_html E chapter_file ;;
         ret (html_content +:+ block)
       else ret html_content) acc d
  = (match collect_blocks E self d l with
     | Ok blocks => Ok (acc +:+ cat blocks)
     | Raise e => Raise e
     end, d, []).
Proof.
  revert acc. induction l as [|chapter l IH]; intros acc.
  - cbn. by rewrite append_empty_r.
  - cbn [for_each collect_blocks]. cbv zeta.
    unfold bind at 1.
    destruct (d !! (docs_dir self // chapter)) as [[content|]|] eqn:Hn.
    + unfold bind at 1. erewrite path_exists_some by done.
      unfold convert_markdown_to_html, bind at 1 2.
      erewrite path_exists_some by done. cbn [negb].
      unfold bind at 1, read_text. rewrite Hn. unfold ret at 1 2.
      rewrite IH. destruct (collect_blocks E self d l); [|done].
      by rewrite cat_cons, append_assoc.
    + unfold bind at 1. erewrite path_exists_some by done.
      unfold convert_markdown_to_html, bind at 1 2.
      erewrite path_exists_some by done. cbn [negb].
      unfold bind at 1, read_text. by rewrite Hn.
    + unfold bind at 1. rewrite path_exists_none by done.
      unfold ret at 1. rewrite IH.
      by destruct (collect_blocks E self d l).
Qed.

(** [generate_html] reads the file system and leaves it as it is; it
    prints nothing (the warning of [convert_markdown_to_html] is behind
    a test of existence that [generate_html] has already made). *)
Lemma generate_html_run (E : Env) (self : EbookGenerator) (d : FS) :
  generate_html E self d
  = (match collect_blocks E self d (chapters self) with
     | Ok blocks =>
         Ok (html_open self +:+ generate_cover E +:+ generate_toc self +:+
             cat blocks +:+ html_close)
     | Raise e => Raise e
     end, d, []).
Proof.
  pose proof (chapter_loop_run E self d (chapters self)) as Hloop.
  unfold generate_html. cbv zeta in *. unfold bind at 1.
  rewrite Hloop.
  destruct (collect_blocks E self d (chapters self)); [|done].
  unfold ret. by rewrite !append_assoc.
Qed.


Lemma collect_blocks_readable (E : Env) (self : EbookGenerator) (d : FS)
    (l : list string) :
  (forall chapter, chapter ∈ l -> d !! (docs_dir self // chapter) <> Some Dir) ->
  exists blocks, collect_blocks E self d l = Ok blocks.
Proof.
  induction l as [|chapter l IH]; intros Hr; [by eexists|].
  cbn [collect_blocks]. cbv zeta.
  destruct IH as [bs Hbs]. { intros c Hc. apply Hr. by right. }
  destruct (d !! (docs_dir self // chapter)) as [[content|]|] eqn:Hn.
  - rewrite Hbs. by eexists.
  - exfalso. apply (Hr chapter); [by left|done].
  - by eexists.
Qed.

Lemma collect_blocks_at_date (E : Env) (date : string) (self : EbookGenerator)
    (d : FS) (l : list string) :
  collect_blocks (at_date E date) self d l = collect_blocks E self d l.
Proof.
  induction l as [|chapter l IH]; [done|].
  cbn [collect_blocks]. by rewrite IH.
Qed.

Lemma generate_cover_date (E : Env) :
  generate_cover E = cover_before_date +:+ strftime_now E +:+ cover_after_date.
Proof.
  unfold generate_cover, cover_before_date, cover_after_date.
  by rewrite !append_assoc.
Qed.


(** ** Claims on the assembled document *)






(** C8. For a fixed registry, fixed file contents and a fixed Markdown
    engine, the output of [generate_html] depends on the clock through
    the one date inside the cover only: there are a text before and a
    text after the date that are the same for every date (or the run
    fails in the same way at every date). *)
Theorem generate_html_deterministic_up_to_date
    (E : Env) (self : EbookGenerator) (d : FS) :
  (exists before after, forall date,
      generate_html (at_date E date) self d
      = (Ok (before +:+ date +:+ after), d, []))
  \/ (exists e, forall date,
      generate_html (at_date E date) self d = (Raise e, d, [])).
Proof.
  destruct (collect_blocks E self d (chapters self)) as [blocks|e] eqn:Hb.
  - left.
    exists (html_open self +:+ cover_before_date),
           (cover_after_date +:+ generate_toc self +:+ cat blocks +:+ html_close).
    intros date. rewrite generate_html_run, collect_blocks_at_date, Hb.
    rewrite generate_cover_date. cbn [strftime_now at_date].
    by rewrite !append_assoc.
  - right. exists e. intros date.
    by rewrite generate_html_run, collect_blocks_at_date, Hb.
Qed.

(** ** Anchors *)

Lemma chapter_id_join (docs : Path) (chapter : string) :
  chapter_id (docs // chapter) = path_stem [chapter].
Proof. unfold chapter_id, path_stem. by rewrite path_name_join. Qed.

(** The textual table of contents that [generate_pdf_pandoc] writes does
    link each chapter to the id of its block. *)
Lemma markdown_toc_anchor_is_chapter_id (docs : Path) :
  Forall (fun chapter => Py.replace chapter ".md" "" = chapter_id (docs // chapter))
         registry.
Proof.
  unfold registry. repeat constructor; by rewrite chapter_id_join.
Qed.

(** C1. The claim says that the anchor of the link of a chapter is the
    id of its block.  In the code it is not, for any chapter of the
    registry and any docs directory: the link of [generate_toc] points
    to the whole file name, extension included, and the id of the block
    is the stem of the name. *)
Theorem toc_anchor_keeps_the_extension (docs : Path) :
  Forall (fun chapter =>
            toc_anchor chapter = chapter_id (docs // chapter) +:+ ".md"
            /\ toc_anchor chapter <> chapter_id (docs // chapter))
         registry
  /\ toc_entry "01-introduction.md"
     = "<li><a href=" +:+ q "#01-introduction.md" +:+ ">01. 01 Introduction</a></li>"
  /\ (forall html, chapter_block (docs // "01-introduction.md") html
     = "<div class=" +:+ q "chapter" +:+ " id=" +:+ q "01-introduction" +:+ ">"
       +:+ html +:+ "</div>").
Proof.
  split; [|split].
  - unfold registry.
    repeat constructor; rewrite chapter_id_join; try reflexivity;
      by apply String.eqb_neq.
  - reflexivity.
  - intros html. unfold chapter_block. by rewrite chapter_id_join.
Qed.

(** ** The end-to-end scenario *)

Lemma scenario_blocks (E : Env) :
  collect_blocks E scenario_generator scenario_disk (chapters scenario_generator)
  = Ok [chapter_block ["docs"; "01-introduction.md"]
          (markdown_markdown E ("# Intro" +:+ nl +:+ "Hello"))].
Proof.
  assert (H1 : scenario_disk !! (docs_dir scenario_generator // "01-introduction.md")
               = Some (File ("# Intro" +:+ nl +:+ "Hello"))) by by vm_compute.
  assert (H2 : scenario_disk !! (docs_dir scenario_generator // "02-installation.md")
               = None) by by vm_compute.
  cbn [chapters scenario_generator collect_blocks]. cbv zeta.
  by rewrite H1, H2.
Qed.

(** C3, as stated, fails: the table of contents of the scenario is not
    the one with the single entry "1. Introduction" that points to
    #01-introduction; it does not hold one entry; and the entry of the
    first chapter is not the expected one. *)
Lemma scenario_toc_is_not_the_expected_one :
  ~ (generate_toc scenario_generator
     = toc_open +:+ cat [scenario_expected_entry] +:+ toc_close
     \/ length (List.filter (fun c => Py.endswith c ".md")
                  (chapters scenario_generator)) = 1
     \/ toc_entry "01-introduction.md" = scenario_expected_entry).
Proof.
  intros [H|[H|H]].
  - revert H. by apply String.eqb_neq.
  - discriminate H.
  - revert H. by apply String.eqb_neq.
Qed.

(** C3, amended.  In the scenario the document holds exactly one chapter
    block, with id 01-introduction, around what the Markdown engine makes
    of the content of the file, and no block for 02-installation; the
    table of contents holds two entries, one per chapter of the registry
    whether its file exists or not, with the texts "01. 01 Introduction"
    and "02. 02 Installation". *)
Theorem scenario_document (E : Env) :
  generate_html E scenario_generator scenario_disk
  = (Ok (html_open scenario_generator +:+ generate_cover E +:+
         (toc_open +:+
          ("<li><a href=" +:+ q ("#" +:+ toc_anchor "01-introduction.md") +:+
             ">01. 01 Introduction</a></li>") +:+
          ("<li><a href=" +:+ q ("#" +:+ toc_anchor "02-installation.md") +:+
             ">02. 02 Installation</a></li>") +:+
          toc_close) +:+
         ("<div class=" +:+ q "chapter" +:+ " id=" +:+ q "01-introduction" +:+ ">" +:+
            markdown_markdown E ("# Intro" +:+ nl +:+ "Hello") +:+ "</div>") +:+
         html_close),
     scenario_disk, []).
Proof.
  rewrite generate_html_run, scenario_blocks.
  replace (generate_toc scenario_generator) with
    (toc_open +:+
     ("<li><a href=" +:+ q ("#" +:+ toc_anchor "01-introduction.md") +:+
        ">01. 01 Introduction</a></li>") +:+
     ("<li><a href=" +:+ q ("#" +:+ toc_anchor "02-installation.md") +:+
        ">02. 02 Installation</a></li>") +:+
     toc_close) by reflexivity.
  rewrite cat_cons. unfold cat. cbn [foldr]. rewrite append_empty_r.
  unfold chapter_block.
  replace (chapter_id ["docs"; "01-introduction.md"]) with "01-introduction"
    by reflexivity.
  reflexivity.
Qed.

(** ** Rules of the Hoare logic *)

Lemma hoare_conseq {A : Type} (P P' : FS -> Prop) (m : M A)
    (Q Q' : Res A -> FS -> list Event -> Prop) :
  hoare P' m Q' ->
  (forall d, P d -> P' d) ->
  (forall r d es, Q' r d es -> Q r d es) ->
  hoare P m Q.
Proof. intros Hm HP HQ d Hd. apply HQ, Hm, HP, Hd. Qed.

Lemma hoare_ret {A : Type} (P : FS -> Prop) (a : A) :
  hoare P (ret a) (fun r d es => r = Ok a /\ P d /\ es = []).
Proof. by intros d Hd. Qed.

Lemma hoare_bind {A B : Type} (P : FS -> Prop) (m : M A) (f : A -> M B)
    (Q1 : Res A -> FS -> list Event -> Prop)
    (Q : Res B -> FS -> list Event -> Prop) :
  hoare P m Q1 ->
  (forall e d es, Q1 (Raise e) d es -> Q (Raise e) d es) ->
  (forall a es1, hoare (fun d => Q1 (Ok a) d es1) (f a)
                       (fun r d es2 => Q r d (es1 ++ es2))) ->
  hoare P (bind m f) Q.
Proof.
  intros Hm Hraise Hf d Hd. specialize (Hm d Hd).
  unfold bind, result, disk_after, events in *.
  destruct (m d) as [[[a|e] d1] es1]; cbn [fst snd] in *.
  - specialize (Hf a es1 d1 Hm).
    unfold result, disk_after, events in Hf.
    by destruct (f a d1) as [[r d2] es2].
  - by apply Hraise.
Qed.

Lemma hoare_try {A : Type} (P : FS -> Prop) (m : M A) (h : exn -> M A)
    (Q1 Q : Res A -> FS -> list Event -> Prop) :
  hoare P m Q1 ->
  (forall a d es, Q1 (Ok a) d es -> Q (Ok a) d es) ->
  (forall e es1, hoare (fun d => Q1 (Raise e) d es1) (h e)
                       (fun r d es2 => Q r d (es1 ++ es2))) ->
  hoare P (try_except m h) Q.
Proof.
  intros Hm Hok Hh d Hd. specialize (Hm d Hd).
  unfold try_except, result, disk_after, events in *.
  destruct (m d) as [[[a|e] d1] es1]; cbn [fst snd] in *.
  - by apply Hok.
  - specialize (Hh e es1 d1 Hm).
    unfold result, disk_after, events in Hh.
    by destruct (h e d1) as [[r d2] es2].
Qed.

Lemma quiet_app (es1 es2 : list Event) : quiet es1 -> quiet es2 -> quiet (es1 ++ es2).
Proof. unfold quiet, backends_invoked. intros H1 H2. by rewrite omap_app, H1, H2. Qed.

(** A loop whose body maintains [I] and calls no back end does so too,
    whether it runs to its end or is left by an exception. *)
Lemma hoare_for_each {A S : Type} (I : FS -> Prop) (l : list A)
    (body : S -> A -> M S) (acc : S) :
  (forall acc x, x ∈ l -> hoare I (body acc x) (fun _ d es => I d /\ quiet es)) ->
  hoare I (for_each l body acc) (fun _ d es => I d /\ quiet es).
Proof.
  revert acc. induction l as [|x l IH]; intros acc Hbody.
  - intros d Hd. by split.
  - cbn [for_each].
    eapply hoare_bind with (Q1 := fun _ d es => I d /\ quiet es).
    + apply Hbody. by left.
    + done.
    + intros acc' es1 d [Hd Hq].
      destruct (IH acc' (fun a y Hy => Hbody a y (list_elem_of_further _ _ _ Hy)) d Hd)
        as [Hd' Hq'].
      split; [done|by apply quiet_app].
Qed.

(** The same for a body that always comes to its end: so does the loop. *)
Lemma hoare_for_each_ok {A S : Type} (I : FS -> Prop) (l : list A)
    (body : S -> A -> M S) (acc : S) :
  (forall acc x, x ∈ l ->
     hoare I (body acc x) (fun r d es => (exists a, r = Ok a) /\ I d /\ quiet es)) ->
  hoare I (for_each l body acc)
        (fun r d es => (exists a, r = Ok a) /\ I d /\ quiet es).
Proof.
  revert acc. induction l as [|x l IH]; intros acc Hbody.
  - intros d Hd. split; [by eexists|by split].
  - cbn [for_each].
    eapply hoare_bind
      with (Q1 := fun r d es => (exists a, r = Ok a) /\ I d /\ quiet es).
    + apply Hbody. by left.
    + by intros e d es [[a [=]] _].
    + intros acc' es1 d (_ & Hd & Hq).
      destruct (IH acc' (fun a y Hy => Hbody a y (list_elem_of_further _ _ _ Hy)) d Hd)
        as (Hr & Hd' & Hq').
      split; [done|]. split; [done|by apply quiet_app].
Qed.

(** Two derived rules for a first part that calls no back end: one when
    it may be left by an exception, one when it comes to its end. *)
Lemma hoare_bind_keeps {A B : Type} (I : FS -> Prop) (m : M A) (f : A -> M B)
    (Q : Res B -> FS -> list Backend -> Prop) :
  hoare I m (fun _ d es => I d /\ quiet es) ->
  (forall e d, I d -> Q (Raise e) d []) ->
  (forall a, hoare I (f a) (fun r d es => Q r d (backends_invoked es))) ->
  hoare I (bind m f) (fun r d es => Q r d (backends_invoked es)).
Proof.
  intros Hm Hraise Hf.
  eapply hoare_bind with (Q1 := fun _ d es => I d /\ quiet es); [done|..].
  - intros e d es [Hd Hq]. rewrite Hq. by apply Hraise.
  - intros a es1 d [Hd Hq]. unfold backends_invoked.
    rewrite omap_app. fold (backends_invoked es1). rewrite Hq.
    by apply Hf.
Qed.

Lemma hoare_bind_ok {A B : Type} (I : FS -> Prop) (m : M A) (f : A -> M B)
    (Q : Res B -> FS -> list Backend -> Prop) :
  hoare I m (fun r d es => (exists a, r = Ok a) /\ I d /\ quiet es) ->
  (forall a, hoare I (f a) (fun r d es => Q r d (backends_invoked es))) ->
  hoare I (bind m f) (fun r d es => Q r d (backends_invoked es)).
Proof.
  intros Hm Hf.
  eapply hoare_bind
    with (Q1 := fun r d es => (exists a, r = Ok a) /\ I d /\ quiet es); [done|..].
  - by intros e d es [[a [=]] _].
  - intros a es1 d (_ & Hd & Hq). unfold backends_invoked.
    rewrite omap_app. fold (backends_invoked es1). rewrite Hq.
    by apply Hf.
Qed.

(** What maintains every invariant and calls no back end. *)
Lemma keeps_bind {A B : Type} (I : FS -> Prop) (m : M A) (f : A -> M B) :
  hoare I m (fun _ d es => I d /\ quiet es) ->
  (forall a, hoare I (f a) (fun _ d es => I d /\ quiet es)) ->
  hoare I (bind m f) (fun _ d es => I d /\ quiet es).
Proof.
  intros Hm Hf.
  eapply hoare_bind with (Q1 := fun _ d es => I d /\ quiet es); [done|done|].
  intros a es1 d [Hd Hq]. destruct (Hf a d Hd) as [Hd' Hq'].
  split; [done|by apply quiet_app].
Qed.

Lemma keeps_ret {A : Type} (I : FS -> Prop) (a : A) :
  hoare I (ret a) (fun _ d es => I d /\ quiet es).
Proof. by intros d Hd. Qed.

Lemma keeps_raise {A : Type} (I : FS -> Prop) (e : exn) :
  hoare I (@raise A e) (fun _ d es => I d /\ quiet es).
Proof. by intros d Hd. Qed.

Lemma keeps_print (I : FS -> Prop) (m : Msg) :
  hoare I (print m) (fun _ d es => I d /\ quiet es).
Proof. by intros d Hd. Qed.

Lemma keeps_path_exists (I : FS -> Prop) (p : Path) :
  hoare I (path_exists p) (fun _ d es => I d /\ quiet es).
Proof. by intros d Hd. Qed.

Lemma keeps_read_text (I : FS -> Prop) (p : Path) :
  hoare I (read_text p) (fun _ d es => I d /\ quiet es).
Proof.
  intros d Hd. unfold read_text, disk_after, events.
  by destruct (d !! p) as [[c|]|].
Qed.

(** ** The combined file, written under an invariant *)

Section CombinedFile.

Context (E : Env) (self : EbookGenerator).
(** [f] is the combined file; [I] is any property of the file system
    that a write to [f] maintains. *)
Context (f : Path) (I : FS -> Prop).
Hypothesis I_write : forall d content, I d -> I (<[f := File content]> d).

Lemma fwrite_ok (data : string) :
  hoare I (fwrite f data)
        (fun r d es => (exists a, r = Ok a) /\ I d /\ quiet es).
Proof. intros d Hd. split; [by eexists|]. split; [by apply I_write|done]. Qed.

Lemma fwrite_keeps (data : string) :
  hoare I (fwrite f data) (fun _ d es => I d /\ quiet es).
Proof. intros d Hd. split; [by apply I_write|done]. Qed.

(** The lines of the textual table of contents. *)
Lemma toc_lines_ok (l : list string) :
  hoare I
    (for_each l
       (fun _ chapter =>
          if Py.endswith chapter ".md"
          then fwrite f (markdown_toc_line chapter)
          else ret tt) tt)
    (fun r d es => (exists a, r = Ok a) /\ I d /\ quiet es).
Proof.
  apply hoare_for_each_ok. intros [] chapter _.
  destruct (Py.endswith chapter ".md"); [apply fwrite_ok|].
  intros d Hd. split; [by eexists|by split].
Qed.

(** The chapters: the invariant holds after the loop, also when a
    chapter that cannot be read has stopped it. *)
Lemma write_chapters_keeps :
  hoare I (write_chapters self f) (fun _ d es => I d /\ quiet es).
Proof.
  apply hoare_for_each. intros [] chapter _.
  apply keeps_bind; [apply keeps_path_exists|]. intros [|]; [|apply keeps_ret].
  apply keeps_bind; [apply fwrite_keeps|]. intros _.
  apply keeps_bind; [apply keeps_read_text|]. intros content.
  apply keeps_bind; [apply fwrite_keeps|]. intros _.
  apply fwrite_keeps.
Qed.

End CombinedFile.



(** ** The pandoc back end *)

Lemma pandoc_except_reraises {A : Type} (I : FS -> Prop) (e : exn) :
  hoare I (@pandoc_except A e) (fun r d es => r = Raise e /\ I d /\ quiet es).
Proof. intros d Hd. by destruct e. Qed.

Lemma open_w_spec (p : Path) :
  hoare (fun _ => True) (open_w p)
        (fun r d es => quiet es /\
           match r with
           | Ok _ => is_file d p
           | Raise _ => d !! p = Some Dir
           end).
Proof.
  intros d _. unfold open_w, result, disk_after, events.
  destruct (d !! p) as [[content|]|] eqn:Hp; cbn [fst snd]; split; try done;
    eexists; apply lookup_insert_eq.
Qed.

Lemma is_file_write (f : Path) (d : FS) (content : string) :
  is_file d f -> is_file (<[f := File content]> d) f.
Proof. intros _. eexists. apply lookup_insert_eq. Qed.

Lemma chapters_readable_write (self : EbookGenerator) (f : Path) (d : FS)
    (content : string) :
  chapters_readable self d -> chapters_readable self (<[f := File content]> d).
Proof.
  intros Hr chapter Hin. rewrite lookup_insert.
  case_decide; [done|by apply Hr].
Qed.

(** The end of both pandoc paths: the subprocess, then the deletion of
    the combined file, which is reached on the success of pandoc only. *)
Lemma run_then_unlink (E : Env) (cmd : list string) (f : Path) :
  hoare (fun d => is_file d f)
        (subprocess_run_check E cmd ;; unlink f)
        (fun r d es =>
           backends_invoked es = [Pandoc] /\
           match r with
           | Ok _ => d !! f = None
           | Raise _ => is_file d f
           end).
Proof.
  intros d [content Hf].
  unfold bind, subprocess_run_check, unlink, result, disk_after, events.
  destruct (subprocess_run E cmd d) as [rc|].
  - destruct (rc =? 0)%Z.
    + rewrite Hf. cbn [fst snd]. split; [done|]. apply lookup_delete_eq.
    + cbn [fst snd]. split; [done|]. by eexists.
  - cbn [fst snd]. split; [done|]. by eexists.
Qed.

(** What [generate_pdf_pandoc] leaves behind, on every file system: the
    combined file is gone when the call returns, and it is still there
    whenever the call raises; pandoc is called at most once. *)
Lemma generate_pdf_pandoc_spec (E : Env) (self : EbookGenerator) (out : Path) :
  hoare (fun _ => True) (generate_pdf_pandoc E self out)
        (fun r d es =>
           match r with
           | Ok _ => d !! combined_md_path self = None
                     /\ backends_invoked es = [Pandoc]
           | Raise _ => is_Some (d !! combined_md_path self)
                        /\ (backends_invoked es = []
                            \/ backends_invoked es = [Pandoc])
           end).
Proof.
  unfold generate_pdf_pandoc. cbv zeta. set (f := combined_md_path self).
  set (Qb := fun (r : Res unit) (d : FS) (bs : list Backend) =>
               match r with
               | Ok _ => d !! f = None /\ bs = [Pandoc]
               | Raise _ => is_Some (d !! f) /\ (bs = [] \/ bs = [Pandoc])
               end).
  assert (HQraise : forall e d, is_file d f -> Qb (Raise e) d []).
  { intros e d [content Hd]. split; [by rewrite Hd|by left]. }
  assert (Hw : forall d content, is_file d f -> is_file (<[f := File content]> d) f)
    by (intros; by apply is_file_write).
  eapply hoare_try with (Q1 := fun r d es => Qb r d (backends_invoked es)).
  - eapply hoare_bind; [apply open_w_spec|..].
    + intros e d es [Hq Hd]. split; [by rewrite Hd|by left].
    + intros [] es1 d [Hq Hf].
      unfold backends_invoked. rewrite omap_app.
      fold (backends_invoked es1). rewrite Hq. cbn [app].
      revert d Hf. clear es1 Hq.
      change (hoare (fun d => is_file d f)
                (fwrite f title_line ;;
                 fwrite f (date_line E) ;;
                 fwrite f ("## Table of Contents" +:+ nl +:+ nl) ;;
                 for_each (chapters self)
                   (fun _ chapter =>
                      if Py.endswith chapter ".md"
                      then fwrite f (markdown_toc_line chapter)
                      else ret tt) tt ;;
                 fwrite f (nl +:+ "---" +:+ nl +:+ nl) ;;
                 write_chapters self f ;;
                 subprocess_run_check E (pandoc_pdf_cmd f out) ;;
                 unlink f)
                (fun r d es => Qb r d (backends_invoked es))).
      apply hoare_bind_ok; [by apply fwrite_ok|]. intros _.
      apply hoare_bind_ok; [by apply fwrite_ok|]. intros _.
      apply hoare_bind_ok; [by apply fwrite_ok|]. intros _.
      apply hoare_bind_ok; [by apply toc_lines_ok|]. intros _.
      apply hoare_bind_ok; [by apply fwrite_ok|]. intros _.
      apply hoare_bind_keeps; [by apply write_chapters_keeps|done|]. intros _.
      eapply hoare_conseq; [apply run_then_unlink|done|].
      intros [[]|e] d es [Hb Hd]; (split; [|by auto]); [done|].
      destruct Hd as [content Hd]. by rewrite Hd.
  - done.
  - intros e es1 d [Hs Hb].
    destruct (pandoc_except_reraises (A := unit) (fun d' => d' = d) e d eq_refl)
      as (Hr & Hd & Hq).
    rewrite Hr, Hd. split; [done|].
    unfold backends_invoked. rewrite omap_app.
    fold (backends_invoked es1).
    fold (backends_invoked (events (@pandoc_except unit e d))).
    rewrite Hq. by rewrite app_nil_r.
Qed.


(** C2. The claim says that the combined file is removed on the success
    path and on every failure path.  The code removes it on the success
    path only: whenever [generate_pdf_pandoc] raises (pandoc exits with
    an error, pandoc is not installed, a chapter cannot be read), the
    combined path is still on the disk when the exception leaves the
    call.  On the success path it is gone. *)
Theorem generate_pdf_pandoc_leaves_combined_md_on_failure
    (E : Env) (self : EbookGenerator) (output_file : Path) (d : FS) :
  let o := generate_pdf_pandoc E self output_file d in
  (forall e, result o = Raise e ->
     is_Some (disk_after o !! combined_md_path self))
  /\ (result o = Ok tt -> disk_after o !! combined_md_path self = None).
Proof.
  cbv zeta. pose proof (generate_pdf_pandoc_spec E self output_file d I) as H.
  split.
  - intros e He. rewrite He in H. by destruct H.
  - intros Hok. rewrite Hok in H. by destruct H.
Qed.

Lemma generate_pdf_pandoc_leaves_combined_md_on_failure_witness :
  result (generate_pdf_pandoc (toy_env false false (Some 1%Z)) default_generator
            ["ebook"; "laravel-book.pdf"] ∅)
  = Raise (CalledProcessError 1
             (pandoc_pdf_cmd ["ebook"; "combined.md"] ["ebook"; "laravel-book.pdf"]))
  /\ is_Some (disk_after
                (generate_pdf_pandoc (toy_env false false (Some 1%Z)) default_generator
                   ["ebook"; "laravel-book.pdf"] ∅)
              !! combined_md_path default_generator).
Proof.
  split; [by vm_compute|].
  apply (proj1 (generate_pdf_pandoc_leaves_combined_md_on_failure
                  (toy_env false false (Some 1%Z)) default_generator
                  ["ebook"; "laravel-book.pdf"] ∅)
           (CalledProcessError 1
              (pandoc_pdf_cmd ["ebook"; "combined.md"] ["ebook"; "laravel-book.pdf"]))).
  by vm_compute.
Defined.

(** The same when pandoc is not installed: the message asks for pandoc
    and the combined file stays. *)
Example pandoc_missing_keeps_combined_md :
  let o := generate_pdf_pandoc (toy_env false false None) default_generator
             ["ebook"; "laravel-book.pdf"] ∅ in
  result o = Raise (FileNotFoundError "pandoc")
  /\ is_file (disk_after o) ["ebook"; "combined.md"]
  /\ last (events o) = Some (EvPrint MsgPandocNotFound).
Proof.
  cbv zeta. split; [by vm_compute|]. split; [|by vm_compute].
  eexists. by vm_compute.
Qed.

(** ** The choice of the PDF back end *)


(** [try: m  except Exception as e: print(...)] never raises; it adds
    the message of the failure to what [m] did. *)
Lemma try_print (m : M unit) (msg : exn -> Msg) (d : FS) :
  try_except m (fun e => print (msg e)) d
  = (Ok tt, disk_after (m d),
     events (m d) ++ match result (m d) with
                     | Ok _ => []
                     | Raise e => [EvPrint (msg e)]
                     end).
Proof.
  unfold try_except, print, result, disk_after, events.
  destruct (m d) as [[[[]|e] d1] es1]; cbn [fst snd]; [|done].
  by rewrite app_nil_r.
Qed.







(** ** Runs, step by step *)

Lemma bind_run {A B : Type} (m : M A) (f : A -> M B) (d : FS) :
  bind m f d
  = match result (m d) with
    | Ok a =>
        (result (f a (disk_after (m d))), disk_after (f a (disk_after (m d))),
         events (m d) ++ events (f a (disk_after (m d))))
    | Raise e => (Raise e, disk_after (m d), events (m d))
    end.
Proof.
  unfold bind, result, disk_after, events.
  destruct (m d) as [[[a|e] d1] es1]; cbn [fst snd]; [|done].
  by destruct (f a d1) as [[r d2] es2].
Qed.

Ltac step H :=
  rewrite bind_run, H; cbn [result disk_after events fst snd].

Lemma open_w_run (p : Path) (d : FS) :
  d !! p <> Some Dir -> open_w p d = (Ok tt, <[p := File ""]> d, [EvOpenW p]).
Proof. intros Hp. unfold open_w. by destruct (d !! p) as [[content|]|]. Qed.

Lemma fwrite_run (p : Path) (d : FS) (content data : string) :
  fwrite p data (<[p := File content]> d)
  = (Ok tt, <[p := File (content +:+ data)]> d, [EvWrite p data]).
Proof.
  unfold fwrite, file_content. by rewrite lookup_insert_eq, insert_insert_eq.
Qed.

Lemma write_chapters_absent (self : EbookGenerator) (f : Path) (d : FS) :
  (forall chapter, chapter ∈ chapters self ->
     d !! (docs_dir self // chapter) = None) ->
  write_chapters self f d = (Ok tt, d, []).
Proof.
  unfold write_chapters. induction (chapters self) as [|chapter l IH]; intros Habs.
  - done.
  - cbn [for_each]. rewrite bind_run, bind_path_exists.
    rewrite bool_decide_eq_false_2.
    + cbn [result disk_after events fst snd ret app]. rewrite IH; [done|].
      intros c Hc. apply Habs. by right.
    + rewrite Habs; [by intros [? ?]|by left].
Qed.

(** The run of [generate_epub] when no chapter of the registry has a
    source file: the combined file holds the title line and the date
    line, and pandoc is started on it. *)
Lemma generate_epub_without_chapters_run
    (E : Env) (self : EbookGenerator) (output_file : Path) (d : FS) :
  (forall chapter, chapter ∈ chapters self ->
     d !! (docs_dir self // chapter) = None) ->
  "combined.md" ∉ chapters self ->
  d !! combined_md_path self <> Some Dir ->
  let f := combined_md_path self in
  let disk := <[f := File (title_line +:+ date_line E)]> d in
  let cmd := pandoc_epub_cmd f output_file
               (bool_decide (is_Some (d !! (output_dir self // "cover.png")))) in
  let before := [EvOpenW f; EvWrite f title_line; EvWrite f (date_line E);
                 EvSubprocess cmd disk] in
  generate_epub E self output_file d
  = match subprocess_run E cmd disk with
    | Some rc =>
        if (rc =? 0)%Z then (Ok tt, delete f disk, before ++ [EvUnlink f])
        else (Raise (CalledProcessError rc cmd), disk,
              before ++ [EvPrint (MsgErrorRunningPandoc (CalledProcessError rc cmd))])
    | None => (Raise (FileNotFoundError "pandoc"), disk,
               before ++ [EvPrint MsgPandocNotFound])
    end.
Proof.
  intros Habs Hname Hdir. cbv zeta.
  set (f := combined_md_path self).
  set (disk := <[f := File (title_line +:+ date_line E)]> d).
  assert (Habs' : forall chapter, chapter ∈ chapters self ->
            disk !! (docs_dir self // chapter) = None).
  { intros chapter Hin. unfold disk. rewrite lookup_insert_ne; [by apply Habs|].
    intros Heq. apply path_join_inj in Heq as [_ <-]. by apply Hname. }
  assert (Hcover : disk !! (output_dir self // "cover.png")
                   = d !! (output_dir self // "cover.png")).
  { unfold disk. rewrite lookup_insert_ne; [done|].
    intros Heq. by apply path_join_inj in Heq as [_ ?]. }
  unfold generate_epub, try_except. cbv zeta. fold f.
  step (open_w_run f d Hdir).
  step (fwrite_run f d "" title_line).
  step (fwrite_run f d ("" +:+ title_line) (date_line E)).
  change ("" +:+ title_line) with title_line. fold disk.
  step (write_chapters_absent self f disk Habs').
  rewrite bind_path_exists, Hcover.
  rewrite bind_run. unfold subprocess_run_check.
  destruct (subprocess_run E _ disk) as [rc|].
  - destruct (rc =? 0)%Z; cbn [result disk_after events fst snd].
    + unfold unlink, disk. by rewrite lookup_insert_eq.
    + done.
  - done.
Qed.

Lemma registry_has_no_combined_md : "combined.md" ∉ registry.
Proof.
  unfold registry. intros H.
  repeat (apply elem_of_cons in H as [H|H]; [discriminate H|]).
  by apply elem_of_nil in H.
Qed.



(** C10. The claim says that without a cover image the argument list
    is the base command and nothing more.  The code puts an empty string
    where the flag would be: with the default directories and no
    cover.png, pandoc is started with seven arguments, the last of them
    empty, and not with the six of the base command. *)
Theorem generate_epub_passes_an_empty_argument (E : Env) :
  let cmd := [ "pandoc"; "ebook/combined.md"; "-o"; "ebook/laravel-book.epub";
               "--toc"; "--number-sections"; "" ] in
  (exists disk rest,
      events (generate_epub E default_generator ["ebook"; "laravel-book.epub"] ∅)
      = [EvOpenW ["ebook"; "combined.md"];
         EvWrite ["ebook"; "combined.md"] title_line;
         EvWrite ["ebook"; "combined.md"] (date_line E);
         EvSubprocess cmd disk] ++ rest)
  /\ cmd <> [ "pandoc"; "ebook/combined.md"; "-o"; "ebook/laravel-book.epub";
              "--toc"; "--number-sections" ]
  /\ (forall f output_file, length (pandoc_epub_cmd f output_file false) = 7
                            /\ last (pandoc_epub_cmd f output_file false) = Some "").
Proof.
  cbv zeta. split; [|split; [done|by split]].
  rewrite (generate_epub_without_chapters_run E default_generator
             ["ebook"; "laravel-book.epub"] ∅).
  - cbv zeta. rewrite lookup_empty.
    rewrite bool_decide_eq_false_2 by (by intros [? ?]).
    eexists.
    destruct (subprocess_run E _ _) as [rc|]; [destruct (rc =? 0)%Z|];
      by eexists.
  - intros chapter _. apply lookup_empty.
  - apply registry_has_no_combined_md.
  - by rewrite lookup_empty.
Qed.

(** ** The orchestrator *)

(** The first stage: either the assembly raises, or the HTML file cannot
    be opened, or the document is written to the HTML file. *)
Lemma html_stage_run (E : Env) (self : EbookGenerator) (d : FS) :
  let html_file := output_dir self // "laravel-book.html" in
  html_stage E self d
  = match result (generate_html E self d) with
    | Raise e => (Raise e, d, [])
    | Ok html =>
        match d !! html_file with
        | Some Dir => (Raise (IsADirectoryError (path_str html_file)), d, [])
        | _ => (Ok html, <[html_file := File html]> d,
                [EvOpenW html_file; EvWrite html_file html;
                 EvPrint (MsgHtmlGenerated html_file)])
        end
    end.
Proof.
  cbv zeta. unfold html_stage. cbv zeta.
  rewrite bind_run, generate_html_run. cbn [result disk_after events fst snd].
  destruct (collect_blocks E self d (chapters self)) as [blocks|e]; [|done].
  set (hf := output_dir self // "laravel-book.html").
  set (html := html_open self +:+ _).
  destruct (d !! hf) as [[content|]|] eqn:Hhf.
  - assert (Hdir : d !! hf <> Some Dir) by by rewrite Hhf.
    step (open_w_run hf d Hdir). step (fwrite_run hf d "" html).
    rewrite bind_run. by cbn.
  - rewrite bind_run. unfold open_w. by rewrite Hhf.
  - assert (Hdir : d !! hf <> Some Dir) by by rewrite Hhf.
    step (open_w_run hf d Hdir). step (fwrite_run hf d "" html).
    rewrite bind_run. by cbn.
Qed.

Lemma epub_stage_run (E : Env) (self : EbookGenerator) (d : FS) :
  let epub_file := output_dir self // "laravel-book.epub" in
  let attempt := generate_epub E self epub_file d in
  epub_stage E self d
  = (Ok tt, disk_after attempt,
     events attempt ++
     [EvPrint match result attempt with
              | Ok _ => MsgEpubGenerated epub_file
              | Raise e => MsgEpubFailed e
              end]).
Proof.
  cbv zeta. unfold epub_stage. cbv zeta. rewrite try_print, bind_run.
  destruct (result (generate_epub E self _ d)) as [[]|e];
    cbn [result disk_after events fst snd print]; [|done].
  by rewrite app_nil_r.
Qed.

(** C6. The run of all formats.  After the banner the first thing done
    is the HTML stage; when it succeeds, its events are the writing of
    the HTML file, before any back end is called.  The PDF stage and the
    EPUB stage then both run, one after the other, and neither raises:
    an exception of the PDF attempt is printed and the EPUB attempt
    still takes place, and an exception of the EPUB attempt is printed
    as well; the run ends normally with its last message.  The run
    raises exactly when the HTML stage raises, with the same exception,
    and then nothing follows that stage. *)
Theorem generate_all_stages (E : Env) (self : EbookGenerator) (d : FS) :
  let html_file := output_dir self // "laravel-book.html" in
  let pdf_file := output_dir self // "laravel-book.pdf" in
  let epub_file := output_dir self // "laravel-book.epub" in
  let o1 := html_stage E self d in
  match result o1 with
  | Raise e =>
      generate_all E self d
      = (Raise e, disk_after o1, EvPrint MsgGenerating :: events o1)
      /\ quiet (events o1)
  | Ok html =>
      let a2 := pdf_attempt E self html pdf_file (disk_after o1) in
      let o2 := pdf_stage E self html (disk_after o1) in
      let a3 := generate_epub E self epub_file (disk_after o2) in
      let o3 := epub_stage E self (disk_after o2) in
      generate_all E self d
      = (Ok tt, disk_after o3,
         EvPrint MsgGenerating ::
         events o1 ++ events o2 ++ events o3 ++ [EvPrint MsgComplete])
      /\ events o1 = [EvOpenW html_file; EvWrite html_file html;
                      EvPrint (MsgHtmlGenerated html_file)]
      /\ disk_after o1 !! html_file = Some (File html)
      /\ result o2 = Ok tt
      /\ events o2 = events a2 ++ match result a2 with
                                  | Ok _ => []
                                  | Raise e => [EvPrint (MsgPdfFailed e)]
                                  end
      /\ result o3 = Ok tt
      /\ events o3 = events a3 ++ [EvPrint match result a3 with
                                           | Ok _ => MsgEpubGenerated epub_file
                                           | Raise e => MsgEpubFailed e
                                           end]
  end.
Proof.
  cbv zeta. unfold generate_all.
  rewrite bind_run. cbn [print result disk_after events fst snd].
  rewrite bind_run.
  pose proof (html_stage_run E self d) as H1. cbv zeta in H1.
  destruct (result (html_stage E self d)) as [html|e] eqn:Hres.
  - rewrite bind_run.
    assert (Hpdf : forall d1, result (pdf_stage E self html d1) = Ok tt).
    { intros d1. unfold pdf_stage. cbv zeta. by rewrite try_print. }
    rewrite Hpdf. rewrite bind_run, !epub_stage_run.
    cbn [result disk_after events fst snd print].
    split; [by rewrite <- !app_assoc|].
    assert (Hstage : html_stage E self d
              = (Ok html, <[output_dir self // "laravel-book.html" := File html]> d,
                 [EvOpenW (output_dir self // "laravel-book.html");
                  EvWrite (output_dir self // "laravel-book.html") html;
                  EvPrint (MsgHtmlGenerated (output_dir self // "laravel-book.html"))])).
    { rewrite H1 in Hres |- *.
      destruct (result (generate_html E self d)) as [html'|e']; [|done].
      destruct (d !! (output_dir self // "laravel-book.html")) as [[content|]|];
        cbn [result fst] in Hres; by inversion Hres. }
    rewrite Hstage. cbn [result disk_after events fst snd].
    split; [done|]. split; [apply lookup_insert_eq|]. split; [done|].
    split; [|done].
    unfold pdf_stage. cbv zeta. by rewrite try_print.
  - split; [done|].
    rewrite H1 in Hres |- *.
    destruct (result (generate_html E self d)) as [html'|e']; [|done].
    destruct (d !! (output_dir self // "laravel-book.html")) as [[content|]|];
      cbn [result fst] in Hres; by inversion Hres.
Qed.

(** * Further properties of the code *)

(** ** Reading the chapters *)

(** X1. [generate_html] only reads: on every disk, whatever it returns,
    it leaves the file system as it found it and prints nothing.  In
    particular the warning of [convert_markdown_to_html] is never printed
    by it: the assembler has tested the existence of the file before. *)
Theorem generate_html_reads_only (E : Env) (self : EbookGenerator) (d : FS) :
  disk_after (generate_html E self d) = d
  /\ events (generate_html E self d) = [].
Proof. by rewrite generate_html_run. Qed.

Lemma collect_blocks_agree (E : Env) (self : EbookGenerator) (d1 d2 : FS)
    (l : list string) :
  (forall chapter, chapter ∈ l ->
     d1 !! (docs_dir self // chapter) = d2 !! (docs_dir self // chapter)) ->
  collect_blocks E self d1 l = collect_blocks E self d2 l.
Proof.
  induction l as [|chapter l IH]; intros Hagree; [done|].
  cbn [collect_blocks]. cbv zeta.
  rewrite (Hagree chapter) by by left.
  rewrite IH; [done|]. intros c Hc. apply Hagree. by right.
Qed.

(** X2. The document depends on the disk through the source files of the
    registry only: two file systems that agree on every chapter path
    give the same result, whatever else they hold. *)
Theorem generate_html_depends_on_chapter_files
    (E : Env) (self : EbookGenerator) (d1 d2 : FS) :
  (forall chapter, chapter ∈ chapters self ->
     d1 !! (docs_dir self // chapter) = d2 !! (docs_dir self // chapter)) ->
  result (generate_html E self d1) = result (generate_html E self d2).
Proof.
  intros Hagree. rewrite !generate_html_run. unfold result. cbn [fst].
  by rewrite (collect_blocks_agree E self d1 d2 (chapters self) Hagree).
Qed.

Lemma generate_html_depends_on_chapter_files_witness :
  result (generate_html (toy_env false false None) scenario_generator scenario_disk)
  = result (generate_html (toy_env false false None) scenario_generator
              (<[ ["ebook"; "cover.png"] := File "png" ]> scenario_disk)).
Proof.
  apply (generate_html_depends_on_chapter_files
           (toy_env false false None) scenario_generator scenario_disk
           (<[ ["ebook"; "cover.png"] := File "png" ]> scenario_disk)).
  intros chapter _. by rewrite lookup_insert_ne.
Defined.


(** ** Names, numbers and ids *)

Lemma rfind_append (c : ascii) (a b : string) :
  Py.rfind c (a +:+ b)
  = match Py.rfind c b with
    | Some i => Some (String.length a + i)
    | None => Py.rfind c a
    end.
Proof.
  induction a as [|x a IH].
  - change ("" +:+ b) with b. by destruct (Py.rfind c b).
  - rewrite append_cons. cbn [Py.rfind String.length]. rewrite IH.
    by destruct (Py.rfind c b).
Qed.

Lemma take_append (a b : string) : Py.take (String.length a) (a +:+ b) = a.
Proof.
  induction a as [|x a IH]; [by destruct b|].
  rewrite append_cons. cbn [String.length Py.take]. by rewrite IH.
Qed.

(** X4. The id of a chapter block is the file name without its ".md",
    for every name with something before the extension and every docs
    directory.  (A file called just ".md" keeps its whole name as id.) *)
Theorem chapter_id_drops_the_extension (docs : Path) (base : string) :
  base <> "" ->
  chapter_id (docs // (base +:+ ".md")) = base
  /\ chapter_id (docs // ".md") = ".md".
Proof.
  intros Hbase. split; [|by rewrite chapter_id_join].
  rewrite chapter_id_join. unfold path_stem, path_name. cbn [List.last].
  rewrite rfind_append. cbn [Py.rfind Ascii.eqb Bool.eqb].
  rewrite length_append. cbn [String.length].
  assert (0 < String.length base) as Hlen.
  { destruct base; [done|cbn; lia]. }
  replace (String.length base + 0) with (String.length base) by lia.
  destruct (0 <? String.length base) eqn:H0; [|apply Nat.ltb_ge in H0; lia].
  destruct (String.length base <? String.length base + 3 - 1) eqn:H1;
    [|apply Nat.ltb_ge in H1; lia].
  cbn [andb]. apply take_append.
Qed.

Lemma chapter_id_drops_the_extension_witness :
  chapter_id (["docs"] // ("10-events-queues" +:+ ".md")) = "10-events-queues".
Proof.
  apply (chapter_id_drops_the_extension ["docs"] "10-events-queues"). done.
Defined.

Lemma split_no_sep (sep : ascii) (a : string) :
  without sep a -> Py.split sep a = [a].
Proof.
  induction a as [|x a IH]; intros Ha; [done|].
  destruct Ha as [Hx Ha]. cbn [Py.split].
  destruct (Ascii.eqb_spec x sep) as [->|_]; [done|].
  by rewrite (IH Ha).
Qed.

Lemma split_at_first (sep : ascii) (a b : string) :
  without sep a ->
  Py.split sep (a +:+ String sep b) = a :: Py.split sep b.
Proof.
  induction a as [|x a IH]; intros Ha.
  - change ("" +:+ String sep b) with (String sep b).
    cbn [Py.split]. by rewrite Ascii.eqb_refl.
  - destruct Ha as [Hx Ha]. rewrite append_cons. cbn [Py.split].
    destruct (Ascii.eqb_spec x sep) as [->|_]; [done|].
    by rewrite (IH Ha).
Qed.

Lemma split_head_without (sep : ascii) (s : string) :
  without sep (Py.item0 (Py.split sep s))
  /\ Py.startswith (Py.item0 (Py.split sep s)) s = true.
Proof.
  induction s as [|x s [IH1 IH2]]; [done|].
  cbn [Py.split]. destruct (Ascii.eqb_spec x sep) as [->|Hne]; [done|].
  destruct (Py.split sep s) as [|w ws]; cbn [Py.item0 hd] in *.
  - cbn. by rewrite Ascii.eqb_refl.
  - split; [by split|]. cbn [Py.startswith]. by rewrite Ascii.eqb_refl.
Qed.

(** X5. The chapter number of the table of contents is the part of the
    file name before its first hyphen: it holds no hyphen and the name
    starts with it.  A name without any hyphen is its own number,
    extension included. *)
Theorem chapter_number_is_the_part_before_the_hyphen :
  (forall chapter,
      without "-" (chapter_number chapter)
      /\ Py.startswith (chapter_number chapter) chapter = true)
  /\ (forall number rest,
        without "-" number -> chapter_number (number +:+ String "-" rest) = number)
  /\ (forall chapter, without "-" chapter -> chapter_number chapter = chapter).
Proof.
  unfold chapter_number. split; [|split].
  - intros chapter. apply split_head_without.
  - intros number rest Hn. by rewrite split_at_first.
  - intros chapter Hc. by rewrite split_no_sep.
Qed.

Lemma chapter_number_is_the_part_before_the_hyphen_witness :
  chapter_number ("10" +:+ String "-" "events-queues.md") = "10"
  /\ chapter_number "appendix.md" = "appendix.md".
Proof.
  split.
  - apply (proj1 (proj2 chapter_number_is_the_part_before_the_hyphen)).
    by repeat split.
  - apply (proj2 (proj2 chapter_number_is_the_part_before_the_hyphen)).
    by repeat split.
Defined.

Lemma replace_hyphen_without (s : string) : without "-" (Py.replace s "-" " ").
Proof.
  unfold Py.replace. induction s as [|x s IH]; [done|].
  cbn [Py.replace_go Py.startswith String.length Nat.sub].
  destruct (Ascii.eqb_spec "-" x) as [<-|Hne].
  - rewrite append_cons. split; [done|]. exact IH.
  - split; [congruence|exact IH].
Qed.

Lemma cased_is_no_hyphen (c : ascii) :
  Py.is_lower c || Py.is_upper c = true ->
  Py.to_lower c <> "-"%char /\ Py.to_upper c <> "-"%char.
Proof.
  destruct c as [[] [] [] [] [] [] [] []]; vm_compute; intros H;
    (discriminate H || (split; discriminate)).
Qed.

Lemma title_go_without (b : bool) (s : string) :
  without "-" s -> without "-" (Py.title_go b s).
Proof.
  revert b. induction s as [|x s IH]; intros b Hs; [done|].
  destruct Hs as [Hx Hs]. cbn [Py.title_go].
  destruct (Py.is_lower x || Py.is_upper x) eqn:Hcased.
  - destruct (cased_is_no_hyphen x Hcased) as [Hl Hu].
    split; [by destruct b|by apply IH].
  - split; [done|by apply IH].
Qed.

(** X6. The display name of a chapter never holds a hyphen, whatever the
    file name: every hyphen has become a space before the title case. *)
Theorem chapter_name_has_no_hyphen (chapter : string) :
  without "-" (chapter_name chapter).
Proof.
  unfold chapter_name, Py.title. apply title_go_without, replace_hyphen_without.
Qed.

(** ** What the pandoc paths leave on the disk *)

Lemma preserves_bind {A B : Type} (I : FS -> Prop) (m : M A) (f : A -> M B) :
  preserves I m -> (forall a, preserves I (f a)) -> preserves I (bind m f).
Proof.
  intros Hm Hf. eapply hoare_bind with (Q1 := fun _ d _ => I d); [done|done|].
  intros a es1. apply Hf.
Qed.

Lemma preserves_try {A : Type} (I : FS -> Prop) (m : M A) (h : exn -> M A) :
  preserves I m -> (forall e, preserves I (h e)) -> preserves I (try_except m h).
Proof.
  intros Hm Hh. eapply hoare_try with (Q1 := fun _ d _ => I d); [done|done|].
  intros e es1. apply Hh.
Qed.

Lemma preserves_for_each {A S : Type} (I : FS -> Prop) (l : list A)
    (body : S -> A -> M S) (acc : S) :
  (forall acc x, preserves I (body acc x)) -> preserves I (for_each l body acc).
Proof.
  intros Hbody. revert acc. induction l as [|x l IH]; intros acc.
  - by intros d Hd.
  - cbn [for_each]. apply preserves_bind; [apply Hbody|]. intros acc'. apply IH.
Qed.

(** What does not write preserves everything. *)
Lemma preserves_readonly {A : Type} (I : FS -> Prop) (m : M A) :
  (forall d, disk_after (m d) = d) -> preserves I m.
Proof. intros Hm d Hd. by rewrite Hm. Qed.

Lemma read_text_readonly (p : Path) (d : FS) : disk_after (read_text p d) = d.
Proof. unfold read_text. by destruct (d !! p) as [[c|]|]. Qed.

Lemma call_engine_readonly (ev : Event) (outcome : option exn) (d : FS) :
  disk_after (call_engine ev outcome d) = d.
Proof. unfold call_engine. by destruct outcome. Qed.

Lemma subprocess_run_check_readonly (E : Env) (cmd : list string) (d : FS) :
  disk_after (subprocess_run_check E cmd d) = d.
Proof.
  unfold subprocess_run_check.
  destruct (subprocess_run E cmd d) as [rc|]; [|done]. by destruct (rc =? 0)%Z.
Qed.

Lemma pandoc_except_readonly {A : Type} (e : exn) (d : FS) :
  disk_after (@pandoc_except A e d) = d.
Proof. by destruct e. Qed.

Lemma preserves_fwrite (f : Path) (I : FS -> Prop) (data : string) :
  away_from f I -> preserves I (fwrite f data).
Proof. intros [Hw _] d Hd. by apply Hw. Qed.

Lemma preserves_open_w (f : Path) (I : FS -> Prop) :
  away_from f I -> preserves I (open_w f).
Proof.
  intros [Hw _] d Hd. unfold open_w, disk_after.
  destruct (d !! f) as [[c|]|]; cbn [fst snd]; by try apply Hw.
Qed.

Lemma preserves_unlink (f : Path) (I : FS -> Prop) :
  away_from f I -> preserves I (unlink f).
Proof.
  intros [_ Hdel] d Hd. unfold unlink, disk_after.
  destruct (d !! f) as [[c|]|]; cbn [fst snd]; by try apply Hdel.
Qed.

Lemma preserves_write_chapters (self : EbookGenerator) (f : Path) (I : FS -> Prop) :
  away_from f I -> preserves I (write_chapters self f).
Proof.
  intros Haway. apply preserves_for_each. intros [] chapter.
  apply preserves_bind; [by apply preserves_readonly|]. intros [|].
  - apply preserves_bind; [by apply preserves_fwrite|]. intros _.
    apply preserves_bind; [apply preserves_readonly, read_text_readonly|].
    intros content.
    apply preserves_bind; [by apply preserves_fwrite|]. intros _.
    by apply preserves_fwrite.
  - by apply preserves_readonly.
Qed.

Lemma preserves_generate_pdf_pandoc (E : Env) (self : EbookGenerator)
    (out : Path) (I : FS -> Prop) :
  away_from (combined_md_path self) I -> preserves I (generate_pdf_pandoc E self out).
Proof.
  intros Haway. unfold generate_pdf_pandoc. cbv zeta.
  apply preserves_try;
    [|intros e; apply preserves_readonly, pandoc_except_readonly].
  apply preserves_bind; [by apply preserves_open_w|]. intros _.
  apply preserves_bind; [by apply preserves_fwrite|]. intros _.
  apply preserves_bind; [by apply preserves_fwrite|]. intros _.
  apply preserves_bind; [by apply preserves_fwrite|]. intros _.
  apply preserves_bind.
  { apply preserves_for_each. intros [] chapter.
    destruct (Py.endswith chapter ".md");
      [by apply preserves_fwrite|by apply preserves_readonly]. }
  intros _.
  apply preserves_bind; [by apply preserves_fwrite|]. intros _.
  apply preserves_bind; [by apply preserves_write_chapters|]. intros _.
  apply preserves_bind;
    [apply preserves_readonly, subprocess_run_check_readonly|]. intros _.
  by apply preserves_unlink.
Qed.

Lemma preserves_generate_epub (E : Env) (self : EbookGenerator)
    (out : Path) (I : FS -> Prop) :
  away_from (combined_md_path self) I -> preserves I (generate_epub E self out).
Proof.
  intros Haway. unfold generate_epub. cbv zeta.
  apply preserves_try;
    [|intros e; apply preserves_readonly, pandoc_except_readonly].
  apply preserves_bind; [by apply preserves_open_w|]. intros _.
  apply preserves_bind; [by apply preserves_fwrite|]. intros _.
  apply preserves_bind; [by apply preserves_fwrite|]. intros _.
  apply preserves_bind; [by apply preserves_write_chapters|]. intros _.
  apply preserves_bind; [by apply preserves_readonly|]. intros cover.
  apply preserves_bind;
    [apply preserves_readonly, subprocess_run_check_readonly|]. intros _.
  by apply preserves_unlink.
Qed.

Lemma away_from_lookup (f p : Path) (v : option node) :
  p <> f -> away_from f (fun d : FS => d !! p = v).
Proof.
  intros Hne. split.
  - intros d content Hd. by rewrite lookup_insert_ne.
  - intros d Hd. by rewrite lookup_delete_ne.
Qed.

(** X8. The two pandoc paths write and delete at one path only, the
    combined file: on every disk and whatever the outcome, every other
    path leads after the call to what it led to before.  The source
    files of the chapters are never modified by them. *)
Theorem pandoc_paths_touch_the_combined_file_only
    (E : Env) (self : EbookGenerator) (output_file p : Path) (d : FS) :
  p <> combined_md_path self ->
  disk_after (generate_pdf_pandoc E self output_file d) !! p = d !! p
  /\ disk_after (generate_epub E self output_file d) !! p = d !! p.
Proof.
  intros Hne. split.
  - by apply (preserves_generate_pdf_pandoc E self output_file
                (fun d' : FS => d' !! p = d !! p) (away_from_lookup _ _ _ Hne) d).
  - by apply (preserves_generate_epub E self output_file
                (fun d' : FS => d' !! p = d !! p) (away_from_lookup _ _ _ Hne) d).
Qed.

Lemma pandoc_paths_touch_the_combined_file_only_witness :
  disk_after (generate_pdf_pandoc (toy_env false false (Some 0%Z)) default_generator
                ["ebook"; "laravel-book.pdf"] two_chapter_disk)
    !! ["docs"; "03-routing.md"]
  = two_chapter_disk !! ["docs"; "03-routing.md"]
  /\ disk_after (generate_epub (toy_env false false (Some 0%Z)) default_generator
                   ["ebook"; "laravel-book.pdf"] two_chapter_disk)
       !! ["docs"; "03-routing.md"]
     = two_chapter_disk !! ["docs"; "03-routing.md"].
Proof.
  apply (pandoc_paths_touch_the_combined_file_only
           (toy_env false false (Some 0%Z)) default_generator
           ["ebook"; "laravel-book.pdf"] ["docs"; "03-routing.md"] two_chapter_disk).
  discriminate.
Defined.

(** The life of the combined file in [generate_epub], as in
    [generate_pdf_pandoc]. *)
Lemma generate_epub_spec (E : Env) (self : EbookGenerator) (out : Path) :
  hoare (fun _ => True) (generate_epub E self out)
        (fun r d es =>
           match r with
           | Ok _ => d !! combined_md_path self = None
                     /\ backends_invoked es = [Pandoc]
           | Raise _ => is_Some (d !! combined_md_path self)
                        /\ (backends_invoked es = []
                            \/ backends_invoked es = [Pandoc])
           end).
Proof.
  unfold generate_epub. cbv zeta. set (f := combined_md_path self).
  set (Qb := fun (r : Res unit) (d : FS) (bs : list Backend) =>
               match r with
               | Ok _ => d !! f = None /\ bs = [Pandoc]
               | Raise _ => is_Some (d !! f) /\ (bs = [] \/ bs = [Pandoc])
               end).
  assert (HQraise : forall e d, is_file d f -> Qb (Raise e) d []).
  { intros e d [content Hd]. split; [by rewrite Hd|by left]. }
  assert (Hw : forall d content, is_file d f -> is_file (<[f := File content]> d) f)
    by (intros; by apply is_file_write).
  eapply hoare_try with (Q1 := fun r d es => Qb r d (backends_invoked es)).
  - eapply hoare_bind; [apply open_w_spec|..].
    + intros e d es [Hq Hd]. split; [by rewrite Hd|by left].
    + intros [] es1 d [Hq Hf].
      unfold backends_invoked. rewrite omap_app.
      fold (backends_invoked es1). rewrite Hq. cbn [app].
      revert d Hf. clear es1 Hq.
      change (hoare (fun d => is_file d f)
                (fwrite f title_line ;;
                 fwrite f (date_line E) ;;
                 write_chapters self f ;;
                 cover <- path_exists (output_dir self // "cover.png") ;;
                 subprocess_run_check E (pandoc_epub_cmd f out cover) ;;
                 unlink f)
                (fun r d es => Qb r d (backends_invoked es))).
      apply hoare_bind_ok; [by apply fwrite_ok|]. intros _.
      apply hoare_bind_ok; [by apply fwrite_ok|]. intros _.
      apply hoare_bind_keeps; [by apply write_chapters_keeps|done|]. intros _.
      apply hoare_bind_keeps; [apply keeps_path_exists|done|]. intros cover.
      eapply hoare_conseq; [apply run_then_unlink|done|].
      intros [[]|e] d es [Hb Hd]; (split; [|by auto]); [done|].
      destruct Hd as [content Hd]. by rewrite Hd.
  - done.
  - intros e es1 d [Hs Hb].
    destruct (pandoc_except_reraises (A := unit) (fun d' => d' = d) e d eq_refl)
      as (Hr & Hd & Hq).
    rewrite Hr, Hd. split; [done|].
    unfold backends_invoked. rewrite omap_app.
    fold (backends_invoked es1).
    fold (backends_invoked (events (@pandoc_except unit e d))).
    rewrite Hq. by rewrite app_nil_r.
Qed.

(** X7. [generate_epub] has the temporary-file life of the PDF path: on
    every disk, when it returns the combined file is gone and pandoc has
    been called exactly once; when it raises, the combined path is still
    on the disk and pandoc has been called at most once.  It never calls
    WeasyPrint or pdfkit. *)
Theorem generate_epub_combined_file_lifecycle
    (E : Env) (self : EbookGenerator) (output_file : Path) (d : FS) :
  let o := generate_epub E self output_file d in
  match result o with
  | Ok _ => disk_after o !! combined_md_path self = None
            /\ backends_invoked (events o) = [Pandoc]
  | Raise _ => is_Some (disk_after o !! combined_md_path self)
               /\ (backends_invoked (events o) = []
                   \/ backends_invoked (events o) = [Pandoc])
  end.
Proof. cbv zeta. exact (generate_epub_spec E self output_file d I). Qed.

(** ** What pandoc is given to read *)

Lemma read_text_run (p : Path) (d : FS) (content : string) :
  d !! p = Some (File content) -> read_text p d = (Ok content, d, []).
Proof. intros Hp. unfold read_text. by rewrite Hp. Qed.

Lemma chapter_sections_cons (self : EbookGenerator) (d : FS) (chapter : string)
    (l : list string) :
  chapter_sections self d (chapter :: l)
  = (if present self d chapter then chapter_section self d chapter else "")
    +:+ chapter_sections self d l.
Proof.
  unfold chapter_sections. cbn [List.filter].
  by destruct (present self d chapter).
Qed.

Lemma markdown_toc_cons (chapter : string) (l : list string) :
  markdown_toc (chapter :: l)
  = (if Py.endswith chapter ".md" then markdown_toc_line chapter else "")
    +:+ markdown_toc l.
Proof.
  unfold markdown_toc. cbn [List.filter].
  by destruct (Py.endswith chapter ".md").
Qed.

(** The loop over the chapters, on a disk where the combined file [f]
    holds [c] and is none of the chapters: it appends their sections. *)
Lemma write_chapters_run (self : EbookGenerator) (f : Path) (d : FS)
    (l : list string) (c : string) :
  (forall chapter, chapter ∈ l -> docs_dir self // chapter <> f) ->
  (forall chapter, chapter ∈ l -> d !! (docs_dir self // chapter) <> Some Dir) ->
  exists es,
    quiet es /\
    for_each l
      (fun _ chapter =>
         let chapter_file := docs_dir self // chapter in
         found <- path_exists chapter_file ;;
         if found then
           fwrite f (nl +:+ "# " +:+ chapter_name chapter +:+ nl +:+ nl) ;;
           content <- read_text chapter_file ;;
           fwrite f content ;;
           fwrite f (nl +:+ nl +:+ "---" +:+ nl +:+ nl)
         else ret tt)
      tt (<[f := File c]> d)
    = (Ok tt, <[f := File (c +:+ chapter_sections self d l)]> d, es).
Proof.
  revert c. induction l as [|chapter l IH]; intros c Hne Hread.
  - exists []. split; [done|]. cbn [for_each]. unfold ret.
    unfold chapter_sections. cbn. by rewrite append_empty_r.
  - assert (Hp : docs_dir self // chapter <> f) by (apply Hne; by left).
    assert (IH' : forall c', exists es, quiet es /\
              for_each l
                (fun _ chapter =>
                   let chapter_file := docs_dir self // chapter in
                   found <- path_exists chapter_file ;;
                   if found then
                     fwrite f (nl +:+ "# " +:+ chapter_name chapter +:+ nl +:+ nl) ;;
                     content <- read_text chapter_file ;;
                     fwrite f content ;;
                     fwrite f (nl +:+ nl +:+ "---" +:+ nl +:+ nl)
                   else ret tt)
                tt (<[f := File c']> d)
              = (Ok tt, <[f := File (c' +:+ chapter_sections self d l)]> d, es)).
    { intros c'. apply IH.
      - intros x Hx. apply Hne. by right.
      - intros x Hx. apply Hread. by right. }
    cbv zeta in IH'.
    cbn [for_each]. cbv zeta. rewrite bind_run, bind_path_exists.
    rewrite lookup_insert_ne by done.
    rewrite chapter_sections_cons. unfold present at 1.
    destruct (d !! (docs_dir self // chapter)) as [[content|]|] eqn:Hn.
    + rewrite bool_decide_eq_true_2 by by eexists.
      step (fwrite_run f d c (nl +:+ "# " +:+ chapter_name chapter +:+ nl +:+ nl)).
      assert (Hread' : read_text (docs_dir self // chapter)
                (<[f := File (c +:+ nl +:+ "# " +:+ chapter_name chapter +:+ nl +:+ nl)]> d)
              = (Ok content,
                 <[f := File (c +:+ nl +:+ "# " +:+ chapter_name chapter +:+ nl +:+ nl)]> d,
                 [])).
      { apply read_text_run. by rewrite lookup_insert_ne. }
      step Hread'.
      step (fwrite_run f d (c +:+ nl +:+ "# " +:+ chapter_name chapter +:+ nl +:+ nl)
              content).
      rewrite fwrite_run. cbn [result disk_after events fst snd].
      destruct (IH' (((c +:+ nl +:+ "# " +:+ chapter_name chapter +:+ nl +:+ nl)
                      +:+ content) +:+ nl +:+ nl +:+ "---" +:+ nl +:+ nl))
        as (es & Hq & Hrun).
      rewrite Hrun. cbn [result disk_after events fst snd].
      eexists. split; [|f_equal; f_equal].
      * apply quiet_app; [done|exact Hq].
      * unfold chapter_section, file_content. rewrite Hn.
        by rewrite !append_assoc.
    + exfalso. apply (Hread chapter); [by left|done].
    + rewrite bool_decide_eq_false_2 by by intros [? ?].
      cbn [ret result disk_after events fst snd].
      destruct (IH' c) as (es & Hq & Hrun).
      rewrite Hrun. cbn [result disk_after events fst snd].
      exists es. split; [done|]. by change ("" +:+ ?x) with x.
Qed.

Lemma toc_lines_run (f : Path) (d : FS) (l : list string) (c : string) :
  exists es,
    quiet es /\
    for_each l
      (fun _ chapter =>
         if Py.endswith chapter ".md"
         then fwrite f (markdown_toc_line chapter)
         else ret tt)
      tt (<[f := File c]> d)
    = (Ok tt, <[f := File (c +:+ markdown_toc l)]> d, es).
Proof.
  revert c. induction l as [|chapter l IH]; intros c.
  - exists []. split; [done|]. cbn [for_each]. unfold ret, markdown_toc.
    cbn. by rewrite append_empty_r.
  - cbn [for_each]. rewrite bind_run, markdown_toc_cons.
    destruct (Py.endswith chapter ".md").
    + rewrite fwrite_run. cbn [result disk_after events fst snd].
      destruct (IH (c +:+ markdown_toc_line chapter)) as (es & Hq & Hrun).
      rewrite Hrun. cbn [result disk_after events fst snd].
      eexists. split; [|by rewrite append_assoc].
      by apply quiet_app.
    + cbn [ret result disk_after events fst snd].
      destruct (IH c) as (es & Hq & Hrun).
      rewrite Hrun. cbn [result disk_after events fst snd].
      exists es. split; [done|]. by change ("" +:+ ?x) with x.
Qed.

Lemma chapter_paths_differ (self : EbookGenerator) :
  "combined.md" ∉ chapters self ->
  forall chapter, chapter ∈ chapters self ->
    docs_dir self // chapter <> combined_md_path self.
Proof.
  intros Hname chapter Hin Heq.
  apply path_join_inj in Heq as [_ ->]. by apply Hname.
Qed.

Ltac list_norm :=
  repeat first [rewrite <- app_assoc | rewrite app_nil_r | progress cbn [app]].

(** The whole run of [generate_epub] when the chapters can be read. *)
Lemma generate_epub_run (E : Env) (self : EbookGenerator) (out : Path) (d : FS) :
  "combined.md" ∉ chapters self ->
  pandoc_ready self d ->
  let f := combined_md_path self in
  let disk := <[f := File (epub_combined E self d)]> d in
  let cmd := pandoc_epub_cmd f out
               (bool_decide (is_Some (d !! (output_dir self // "cover.png")))) in
  exists before,
    quiet before /\
    generate_epub E self out d
    = match subprocess_run E cmd disk with
      | Some rc =>
          if (rc =? 0)%Z
          then (Ok tt, delete f disk, before ++ [EvSubprocess cmd disk; EvUnlink f])
          else (Raise (CalledProcessError rc cmd), disk,
                before ++ [EvSubprocess cmd disk;
                           EvPrint (MsgErrorRunningPandoc (CalledProcessError rc cmd))])
      | None => (Raise (FileNotFoundError "pandoc"), disk,
                 before ++ [EvSubprocess cmd disk; EvPrint MsgPandocNotFound])
      end.
Proof.
  intros Hname [Hdir Hread]. cbv zeta.
  set (f := combined_md_path self) in *.
  assert (exists es, quiet es /\
            write_chapters self f (<[f := File (title_line +:+ date_line E)]> d)
            = (Ok tt,
               <[f := File ((title_line +:+ date_line E)
                            +:+ chapter_sections self d (chapters self))]> d, es))
    as (es & Hq & Hloop).
  { exact (write_chapters_run self f d (chapters self) (title_line +:+ date_line E)
             (chapter_paths_differ self Hname) Hread). }
  assert (Hcover : <[f := File (epub_combined E self d)]> d
                     !! (output_dir self // "cover.png")
                   = d !! (output_dir self // "cover.png")).
  { rewrite lookup_insert_ne; [done|].
    intros Heq. by apply path_join_inj in Heq as [_ ?]. }
  exists ([EvOpenW f; EvWrite f title_line; EvWrite f (date_line E)] ++ es).
  split; [by apply quiet_app|].
  unfold generate_epub, try_except. cbv zeta. fold f.
  step (open_w_run f d Hdir).
  step (fwrite_run f d "" title_line).
  step (fwrite_run f d ("" +:+ title_line) (date_line E)).
  change ("" +:+ title_line) with title_line.
  step Hloop.
  rewrite append_assoc.
  change (title_line +:+ date_line E +:+ chapter_sections self d (chapters self))
    with (epub_combined E self d).
  rewrite bind_path_exists, Hcover.
  rewrite bind_run. unfold subprocess_run_check.
  destruct (subprocess_run E _ _) as [rc|].
  - destruct (rc =? 0)%Z; cbn [result disk_after events fst snd].
    + unfold unlink. rewrite lookup_insert_eq.
      by cbn [result disk_after events fst snd app].
    + unfold pandoc_except, bind, print, raise. f_equal. by list_norm.
  - cbn [result disk_after events fst snd].
    unfold pandoc_except, bind, print, raise. f_equal. by list_norm.
Qed.

(** The whole run of [generate_pdf_pandoc] when the chapters can be read. *)
Lemma generate_pdf_pandoc_run (E : Env) (self : EbookGenerator) (out : Path) (d : FS) :
  "combined.md" ∉ chapters self ->
  pandoc_ready self d ->
  let f := combined_md_path self in
  let disk := <[f := File (pdf_combined E self d)]> d in
  let cmd := pandoc_pdf_cmd f out in
  exists before,
    quiet before /\
    generate_pdf_pandoc E self out d
    = match subprocess_run E cmd disk with
      | Some rc =>
          if (rc =? 0)%Z
          then (Ok tt, delete f disk, before ++ [EvSubprocess cmd disk; EvUnlink f])
          else (Raise (CalledProcessError rc cmd), disk,
                before ++ [EvSubprocess cmd disk;
                           EvPrint (MsgErrorRunningPandoc (CalledProcessError rc cmd))])
      | None => (Raise (FileNotFoundError "pandoc"), disk,
                 before ++ [EvSubprocess cmd disk; EvPrint MsgPandocNotFound])
      end.
Proof.
  intros Hname [Hdir Hread]. cbv zeta.
  set (f := combined_md_path self) in *.
  set (c1 := title_line +:+ date_line E +:+ "## Table of Contents" +:+ nl +:+ nl).
  destruct (toc_lines_run f d (chapters self) c1) as (es1 & Hq1 & Htoc).
  set (c2 := (c1 +:+ markdown_toc (chapters self)) +:+ nl +:+ "---" +:+ nl +:+ nl).
  assert (exists es, quiet es /\
            write_chapters self f (<[f := File c2]> d)
            = (Ok tt, <[f := File (c2 +:+ chapter_sections self d (chapters self))]> d,
               es))
    as (es2 & Hq2 & Hloop).
  { exact (write_chapters_run self f d (chapters self) c2
             (chapter_paths_differ self Hname) Hread). }
  assert (Hc : c2 +:+ chapter_sections self d (chapters self) = pdf_combined E self d).
  { unfold c2, c1, pdf_combined. by rewrite !append_assoc. }
  exists ([EvOpenW f; EvWrite f title_line; EvWrite f (date_line E);
           EvWrite f ("## Table of Contents" +:+ nl +:+ nl)] ++ es1 ++
          [EvWrite f (nl +:+ "---" +:+ nl +:+ nl)] ++ es2).
  split.
  { apply quiet_app; [done|]. apply quiet_app; [done|]. by apply quiet_app. }
  unfold generate_pdf_pandoc, try_except. cbv zeta. fold f.
  step (open_w_run f d Hdir).
  step (fwrite_run f d "" title_line).
  step (fwrite_run f d ("" +:+ title_line) (date_line E)).
  step (fwrite_run f d (("" +:+ title_line) +:+ date_line E)
          ("## Table of Contents" +:+ nl +:+ nl)).
  replace ((("" +:+ title_line) +:+ date_line E) +:+ "## Table of Contents" +:+ nl +:+ nl)
    with c1 by (unfold c1; change ("" +:+ title_line) with title_line;
                by rewrite !append_assoc).
  step Htoc.
  step (fwrite_run f d (c1 +:+ markdown_toc (chapters self))
          (nl +:+ "---" +:+ nl +:+ nl)).
  fold c2. step Hloop. rewrite Hc.
  rewrite bind_run. unfold subprocess_run_check.
  destruct (subprocess_run E _ _) as [rc|].
  - destruct (rc =? 0)%Z; cbn [result disk_after events fst snd].
    + unfold unlink. rewrite lookup_insert_eq.
      cbn [result disk_after events fst snd]. f_equal. by list_norm.
    + unfold pandoc_except, bind, print, raise. f_equal. by list_norm.
  - cbn [result disk_after events fst snd].
    unfold pandoc_except, bind, print, raise. f_equal. by list_norm.
Qed.

Lemma only_files_readable (self : EbookGenerator) (d : FS) :
  (forall p, d !! p <> Some Dir) -> pandoc_ready self d.
Proof. intros H. split; [apply H|]. intros chapter _. apply H. Qed.

Lemma two_chapter_disk_files (p : Path) : two_chapter_disk !! p <> Some Dir.
Proof.
  unfold two_chapter_disk. rewrite lookup_insert. case_decide; [done|].
  rewrite lookup_singleton. by case_decide.
Qed.

(** X12. What [generate_epub] gives pandoc to read.  When the registry
    does not name the combined file and nothing on the way is a
    directory, pandoc is the first back end called, and it finds in the
    combined file the title line, the date line and then, for each
    chapter of the registry that has a source file, in registry order,
    its heading, the content of the file and a rule; every other path
    is as it was before the call.  A chapter without a source file
    leaves no trace in the document. *)
Theorem generate_epub_feeds_pandoc_the_present_chapters
    (E : Env) (self : EbookGenerator) (output_file : Path) (d : FS) :
  "combined.md" ∉ chapters self ->
  pandoc_ready self d ->
  let f := combined_md_path self in
  exists before cover disk rest,
    events (generate_epub E self output_file d)
    = before ++ EvSubprocess (pandoc_epub_cmd f output_file cover) disk :: rest
    /\ quiet before
    /\ disk !! f
       = Some (File (title_line +:+ date_line E +:+
                     cat (map (chapter_section self d)
                            (List.filter (present self d) (chapters self)))))
    /\ (forall p, p <> f -> disk !! p = d !! p).
Proof.
  intros Hname Hready. cbv zeta.
  destruct (generate_epub_run E self output_file d Hname Hready)
    as (before & Hq & Hrun).
  cbv zeta in Hrun. rewrite Hrun. exists before. eexists _, _.
  destruct (subprocess_run E _ _) as [rc|]; [destruct (rc =? 0)%Z|];
    (eexists; split; [reflexivity|]; split; [exact Hq|];
     split; [apply lookup_insert_eq|];
     intros p Hp; by rewrite lookup_insert_ne).
Qed.

Lemma generate_epub_feeds_pandoc_the_present_chapters_witness :
  exists before cover disk rest,
    events (generate_epub (toy_env false false None) default_generator
              ["ebook"; "laravel-book.epub"] two_chapter_disk)
    = before ++ EvSubprocess
                  (pandoc_epub_cmd ["ebook"; "combined.md"]
                     ["ebook"; "laravel-book.epub"] cover) disk :: rest
    /\ quiet before
    /\ disk !! ["ebook"; "combined.md"]
       = Some (File (title_line +:+ date_line (toy_env false false None) +:+
                     cat (map (chapter_section default_generator two_chapter_disk)
                            ["01-introduction.md"; "03-routing.md"])))
    /\ (forall p, p <> ["ebook"; "combined.md"] -> disk !! p = two_chapter_disk !! p).
Proof.
  apply (generate_epub_feeds_pandoc_the_present_chapters
           (toy_env false false None) default_generator
           ["ebook"; "laravel-book.epub"] two_chapter_disk).
  - apply registry_has_no_combined_md.
  - apply only_files_readable, two_chapter_disk_files.
Defined.

(** X13. What [generate_pdf_pandoc] gives pandoc to read, under the same
    conditions: the title line, the date line, the heading of the table
    of contents, one numbered link per chapter whose name ends in ".md"
    (whether its file exists or not), a rule, and then the sections of
    the chapters that have a source file, in registry order. *)
Theorem generate_pdf_pandoc_feeds_pandoc_toc_and_chapters
    (E : Env) (self : EbookGenerator) (output_file : Path) (d : FS) :
  "combined.md" ∉ chapters self ->
  pandoc_ready self d ->
  let f := combined_md_path self in
  exists before disk rest,
    events (generate_pdf_pandoc E self output_file d)
    = before ++ EvSubprocess (pandoc_pdf_cmd f output_file) disk :: rest
    /\ quiet before
    /\ disk !! f
       = Some (File (title_line +:+ date_line E +:+
                     ("## Table of Contents" +:+ nl +:+ nl) +:+
                     cat (map markdown_toc_line
                            (List.filter (fun c => Py.endswith c ".md") (chapters self)))
                     +:+ (nl +:+ "---" +:+ nl +:+ nl) +:+
                     cat (map (chapter_section self d)
                            (List.filter (present self d) (chapters self)))))
    /\ (forall p, p <> f -> disk !! p = d !! p).
Proof.
  intros Hname Hready. cbv zeta.
  destruct (generate_pdf_pandoc_run E self output_file d Hname Hready)
    as (before & Hq & Hrun).
  cbv zeta in Hrun. rewrite Hrun. exists before. eexists.
  destruct (subprocess_run E _ _) as [rc|]; [destruct (rc =? 0)%Z|];
    (eexists; split; [reflexivity|]; split; [exact Hq|];
     split; [apply lookup_insert_eq|];
     intros p Hp; by rewrite lookup_insert_ne).
Qed.

Lemma generate_pdf_pandoc_feeds_pandoc_toc_and_chapters_witness :
  exists before disk rest,
    events (generate_pdf_pandoc (toy_env false false None) scenario_generator
              ["ebook"; "laravel-book.pdf"] scenario_disk)
    = before ++ EvSubprocess
                  (pandoc_pdf_cmd ["ebook"; "combined.md"]
                     ["ebook"; "laravel-book.pdf"]) disk :: rest
    /\ quiet before
    /\ disk !! ["ebook"; "combined.md"]
       = Some (File (title_line +:+ date_line (toy_env false false None) +:+
                     ("## Table of Contents" +:+ nl +:+ nl) +:+
                     cat (map markdown_toc_line
                            ["01-introduction.md"; "02-installation.md"])
                     +:+ (nl +:+ "---" +:+ nl +:+ nl) +:+
                     cat (map (chapter_section scenario_generator scenario_disk)
                            ["01-introduction.md"])))
    /\ (forall p, p <> ["ebook"; "combined.md"] -> disk !! p = scenario_disk !! p).
Proof.
  apply (generate_pdf_pandoc_feeds_pandoc_toc_and_chapters
           (toy_env false false None) scenario_generator
           ["ebook"; "laravel-book.pdf"] scenario_disk).
  - intros H. apply elem_of_cons in H as [H|H]; [discriminate H|].
    apply elem_of_cons in H as [H|H]; [discriminate H|].
    by apply elem_of_nil in H.
  - apply only_files_readable. intros p. unfold scenario_disk.
    rewrite lookup_singleton. by case_decide.
Defined.

(** ** The whole run, when pandoc is missing *)

Lemma pandoc_ready_write (self : EbookGenerator) (p : Path) (d : FS)
    (content : string) :
  pandoc_ready self d -> pandoc_ready self (<[p := File content]> d).
Proof.
  intros [Hdir Hread]. split.
  - rewrite lookup_insert. by case_decide.
  - by apply chapters_readable_write.
Qed.

Lemma html_stage_ok (E : Env) (self : EbookGenerator) (d : FS) :
  chapters_readable self d ->
  d !! (output_dir self // "laravel-book.html") <> Some Dir ->
  exists html,
    result (generate_html E self d) = Ok html
    /\ html_stage E self d
       = (Ok html, <[output_dir self // "laravel-book.html" := File html]> d,
          [EvOpenW (output_dir self // "laravel-book.html");
           EvWrite (output_dir self // "laravel-book.html") html;
           EvPrint (MsgHtmlGenerated (output_dir self // "laravel-book.html"))]).
Proof.
  intros Hread Hdir.
  pose proof (html_stage_run E self d) as Hrun. cbv zeta in Hrun.
  rewrite Hrun, generate_html_run.
  destruct (collect_blocks_readable E self d (chapters self) Hread) as [blocks ->].
  cbn [result fst]. eexists. split; [reflexivity|].
  by destruct (d !! (output_dir self // "laravel-book.html")) as [[c|]|].
Qed.

Lemma pdf_stage_pandoc_missing (E : Env) (self : EbookGenerator)
    (html_content : string) (d : FS) :
  WEASYPRINT_AVAILABLE E = false ->
  PDFKIT_AVAILABLE E = false ->
  (forall cmd disk, subprocess_run E cmd disk = None) ->
  "combined.md" ∉ chapters self ->
  pandoc_ready self d ->
  exists before cmd disk,
    quiet before /\
    pdf_stage E self html_content d
    = (Ok tt, <[combined_md_path self := File (pdf_combined E self d)]> d,
       before ++ [EvSubprocess cmd disk; EvPrint MsgPandocNotFound;
                  EvPrint (MsgPdfFailed (FileNotFoundError "pandoc"))]).
Proof.
  intros HW HP Hnone Hname Hready.
  destruct (generate_pdf_pandoc_run E self (output_dir self // "laravel-book.pdf")
              d Hname Hready) as (before & Hq & Hrun).
  cbv zeta in Hrun. rewrite Hnone in Hrun.
  exists before. eexists _, _. split; [exact Hq|].
  unfold pdf_stage. cbv zeta. rewrite try_print.
  unfold pdf_attempt. rewrite HW, HP. rewrite bind_run, Hrun.
  cbn [result disk_after events fst snd]. f_equal. by list_norm.
Qed.

Lemma epub_stage_pandoc_missing (E : Env) (self : EbookGenerator) (d : FS) :
  (forall cmd disk, subprocess_run E cmd disk = None) ->
  "combined.md" ∉ chapters self ->
  pandoc_ready self d ->
  exists before cmd disk,
    quiet before /\
    epub_stage E self d
    = (Ok tt, <[combined_md_path self := File (epub_combined E self d)]> d,
       before ++ [EvSubprocess cmd disk; EvPrint MsgPandocNotFound;
                  EvPrint (MsgEpubFailed (FileNotFoundError "pandoc"))]).
Proof.
  intros Hnone Hname Hready.
  destruct (generate_epub_run E self (output_dir self // "laravel-book.epub")
              d Hname Hready) as (before & Hq & Hrun).
  cbv zeta in Hrun. rewrite Hnone in Hrun.
  exists before. eexists _, _. split; [exact Hq|].
  pose proof (epub_stage_run E self d) as Hstage. cbv zeta in Hstage.
  rewrite Hstage, Hrun. cbn [result disk_after events fst snd].
  f_equal. by list_norm.
Qed.

(** X11. The run of all formats on a machine with neither WeasyPrint nor
    pdfkit and without pandoc.  The HTML file is written with the
    assembled document; the PDF stage starts pandoc, fails, and prints
    that pandoc must be installed and that the PDF failed; the EPUB
    stage then does the same on its own; the run prints its last message
    and returns normally, and the HTML file still holds the document. *)
Theorem generate_all_without_any_pdf_tool
    (E : Env) (self : EbookGenerator) (d : FS) :
  WEASYPRINT_AVAILABLE E = false ->
  PDFKIT_AVAILABLE E = false ->
  (forall cmd disk, subprocess_run E cmd disk = None) ->
  "combined.md" ∉ chapters self ->
  pandoc_ready self d ->
  d !! (output_dir self // "laravel-book.html") <> Some Dir ->
  let html_file := output_dir self // "laravel-book.html" in
  exists html pdf_writes pdf_cmd pdf_disk epub_writes epub_cmd epub_disk,
    result (generate_html E self d) = Ok html
    /\ result (generate_all E self d) = Ok tt
    /\ events (generate_all E self d)
       = [EvPrint MsgGenerating; EvOpenW html_file; EvWrite html_file html;
          EvPrint (MsgHtmlGenerated html_file)]
         ++ pdf_writes
         ++ [EvSubprocess pdf_cmd pdf_disk; EvPrint MsgPandocNotFound;
             EvPrint (MsgPdfFailed (FileNotFoundError "pandoc"))]
         ++ epub_writes
         ++ [EvSubprocess epub_cmd epub_disk; EvPrint MsgPandocNotFound;
             EvPrint (MsgEpubFailed (FileNotFoundError "pandoc"));
             EvPrint MsgComplete]
    /\ quiet pdf_writes /\ quiet epub_writes
    /\ disk_after (generate_all E self d) !! html_file = Some (File html).
Proof.
  intros HW HP Hnone Hname Hready Hdir. cbv zeta.
  destruct (html_stage_ok E self d (proj2 Hready) Hdir) as (html & Hhtml & Hstage).
  set (hf := output_dir self // "laravel-book.html") in *.
  set (d1 := <[hf := File html]> d) in *.
  assert (Hready1 : pandoc_ready self d1) by by apply pandoc_ready_write.
  destruct (pdf_stage_pandoc_missing E self html d1 HW HP Hnone Hname Hready1)
    as (w2 & cmd2 & disk2 & Hq2 & Hpdf).
  set (d2 := <[combined_md_path self := File (pdf_combined E self d1)]> d1) in *.
  assert (Hready2 : pandoc_ready self d2) by by apply pandoc_ready_write.
  destruct (epub_stage_pandoc_missing E self d2 Hnone Hname Hready2)
    as (w3 & cmd3 & disk3 & Hq3 & Hepub).
  exists html, w2, cmd2, disk2, w3, cmd3, disk3.
  assert (Hall : generate_all E self d
            = (Ok tt, <[combined_md_path self := File (epub_combined E self d2)]> d2,
               [EvPrint MsgGenerating; EvOpenW hf; EvWrite hf html;
                EvPrint (MsgHtmlGenerated hf)]
               ++ w2
               ++ [EvSubprocess cmd2 disk2; EvPrint MsgPandocNotFound;
                   EvPrint (MsgPdfFailed (FileNotFoundError "pandoc"))]
               ++ w3
               ++ [EvSubprocess cmd3 disk3; EvPrint MsgPandocNotFound;
                   EvPrint (MsgEpubFailed (FileNotFoundError "pandoc"));
                   EvPrint MsgComplete])).
  { unfold generate_all.
    rewrite bind_run. cbn [print result disk_after events fst snd].
    step Hstage. step Hpdf. step Hepub.
    unfold print. f_equal. by list_norm. }
  rewrite Hall. cbn [result disk_after events fst snd].
  repeat (split; [done|]).
  assert (Hne : combined_md_path self <> hf).
  { intros Heq. by apply path_join_inj in Heq as [_ ?]. }
  rewrite lookup_insert_ne by done. unfold d2. rewrite lookup_insert_ne by done.
  apply lookup_insert_eq.
Qed.

Lemma generate_all_without_any_pdf_tool_witness :
  exists html pdf_writes pdf_cmd pdf_disk epub_writes epub_cmd epub_disk,
    result (generate_html (toy_env false false None) default_generator two_chapter_disk)
    = Ok html
    /\ result (generate_all (toy_env false false None) default_generator two_chapter_disk)
       = Ok tt
    /\ events (generate_all (toy_env false false None) default_generator two_chapter_disk)
       = [EvPrint MsgGenerating; EvOpenW ["ebook"; "laravel-book.html"];
          EvWrite ["ebook"; "laravel-book.html"] html;
          EvPrint (MsgHtmlGenerated ["ebook"; "laravel-book.html"])]
         ++ pdf_writes
         ++ [EvSubprocess pdf_cmd pdf_disk; EvPrint MsgPandocNotFound;
             EvPrint (MsgPdfFailed (FileNotFoundError "pandoc"))]
         ++ epub_writes
         ++ [EvSubprocess epub_cmd epub_disk; EvPrint MsgPandocNotFound;
             EvPrint (MsgEpubFailed (FileNotFoundError "pandoc"));
             EvPrint MsgComplete]
    /\ quiet pdf_writes /\ quiet epub_writes
    /\ disk_after (generate_all (toy_env false false None) default_generator
                     two_chapter_disk)
         !! ["ebook"; "laravel-book.html"] = Some (File html).
Proof.
  apply (generate_all_without_any_pdf_tool
           (toy_env false false None) default_generator two_chapter_disk).
  - reflexivity.
  - reflexivity.
  - reflexivity.
  - apply registry_has_no_combined_md.
  - apply only_files_readable, two_chapter_disk_files.
  - apply two_chapter_disk_files.
Defined.

(** ** What a whole run leaves on the disk *)

Lemma generate_html_readonly (E : Env) (self : EbookGenerator) (d : FS) :
  disk_after (generate_html E self d) = d.
Proof. by rewrite generate_html_run. Qed.

Lemma generate_pdf_weasyprint_readonly (E : Env) (self : EbookGenerator)
    (html_content : string) (out : Path) (d : FS) :
  disk_after (generate_pdf_weasyprint E self html_content out d) = d.
Proof.
  unfold generate_pdf_weasyprint.
  destruct (WEASYPRINT_AVAILABLE E); [apply call_engine_readonly|done].
Qed.

Lemma generate_pdf_pdfkit_readonly (E : Env) (self : EbookGenerator)
    (html_content : string) (out : Path) (d : FS) :
  disk_after (generate_pdf_pdfkit E self html_content out d) = d.
Proof.
  unfold generate_pdf_pdfkit.
  destruct (PDFKIT_AVAILABLE E); [apply call_engine_readonly|done].
Qed.

Lemma preserves_print (I : FS -> Prop) (msg : Msg) : preserves I (print msg).
Proof. by apply preserves_readonly. Qed.

Lemma preserves_html_stage (E : Env) (self : EbookGenerator) (I : FS -> Prop) :
  away_from (output_dir self // "laravel-book.html") I ->
  preserves I (html_stage E self).
Proof.
  intros Haway. unfold html_stage. cbv zeta.
  apply preserves_bind; [apply preserves_readonly, generate_html_readonly|].
  intros html.
  apply preserves_bind; [by apply preserves_open_w|]. intros _.
  apply preserves_bind; [by apply preserves_fwrite|]. intros _.
  apply preserves_bind; [apply preserves_print|]. intros _.
  by apply preserves_readonly.
Qed.


Lemma preserves_pdf_stage (E : Env) (self : EbookGenerator)
    (html_content : string) (I : FS -> Prop) :
  away_from (combined_md_path self) I ->
  preserves I (pdf_stage E self html_content).
Proof.
  intros Haway. unfold pdf_stage. cbv zeta.
  apply preserves_try; [|intros e; apply preserves_print].
  unfold pdf_attempt.
  destruct (WEASYPRINT_AVAILABLE E); [|destruct (PDFKIT_AVAILABLE E)].
  - apply preserves_bind; [|intros _; apply preserves_print].
    apply preserves_readonly. intros d. apply generate_pdf_weasyprint_readonly.
  - apply preserves_bind; [|intros _; apply preserves_print].
    apply preserves_readonly. intros d. apply generate_pdf_pdfkit_readonly.
  - apply preserves_bind; [|intros _; apply preserves_print].
    by apply preserves_generate_pdf_pandoc.
Qed.

Lemma preserves_epub_stage (E : Env) (self : EbookGenerator) (I : FS -> Prop) :
  away_from (combined_md_path self) I ->
  preserves I (epub_stage E self).
Proof.
  intros Haway. unfold epub_stage. cbv zeta.
  apply preserves_try; [|intros e; apply preserves_print].
  apply preserves_bind; [|intros _; apply preserves_print].
  by apply preserves_generate_epub.
Qed.

Lemma preserves_generate_all (E : Env) (self : EbookGenerator) (I : FS -> Prop) :
  away_from (output_dir self // "laravel-book.html") I ->
  away_from (combined_md_path self) I ->
  preserves I (generate_all E self).
Proof.
  intros Hhtml Hcombined. unfold generate_all.
  apply preserves_bind; [apply preserves_print|]. intros _.
  apply preserves_bind; [by apply preserves_html_stage|]. intros html.
  apply preserves_bind; [by apply preserves_pdf_stage|]. intros _.
  apply preserves_bind; [by apply preserves_epub_stage|]. intros _.
  apply preserves_print.
Qed.

(** X9. A run of all formats writes at two paths of the output
    directory and nowhere else: the HTML file and the combined file.
    Whatever the disk, the flags and the outcomes of the back ends,
    every other path leads after the run to what it led to before, the
    sources of the chapters among them. *)
Theorem generate_all_writes_two_paths_only
    (E : Env) (self : EbookGenerator) (p : Path) (d : FS) :
  p <> output_dir self // "laravel-book.html" ->
  p <> output_dir self // "combined.md" ->
  disk_after (generate_all E self d) !! p = d !! p.
Proof.
  intros Hhtml Hcombined.
  by apply (preserves_generate_all E self (fun d' : FS => d' !! p = d !! p)
              (away_from_lookup _ _ _ Hhtml) (away_from_lookup _ _ _ Hcombined) d).
Qed.

Lemma generate_all_writes_two_paths_only_witness :
  disk_after (generate_all (toy_env true false None) default_generator two_chapter_disk)
    !! ["docs"; "01-introduction.md"]
  = two_chapter_disk !! ["docs"; "01-introduction.md"].
Proof.
  apply (generate_all_writes_two_paths_only
           (toy_env true false None) default_generator
           ["docs"; "01-introduction.md"] two_chapter_disk); discriminate.
Defined.

Lemma generate_all_disk (E : Env) (self : EbookGenerator) (d : FS) (html : string) :
  result (html_stage E self d) = Ok html ->
  disk_after (generate_all E self d)
  = disk_after
      (generate_epub E self (output_dir self // "laravel-book.epub")
         (disk_after (pdf_stage E self html (disk_after (html_stage E self d))))).
Proof.
  intros Hres. unfold generate_all.
  rewrite bind_run. cbn [print result disk_after events fst snd].
  rewrite bind_run.
  change (html_stage E self d).1.1 with (result (html_stage E self d)).
  rewrite Hres.
  change (html_stage E self d).1.2 with (disk_after (html_stage E self d)).
  cbn [fst snd]. rewrite bind_run.
  assert (Hpdf : forall d1, result (pdf_stage E self html d1) = Ok tt).
  { intros d1. unfold pdf_stage. cbv zeta. by rewrite try_print. }
  rewrite Hpdf. cbn [fst snd]. rewrite bind_run, !epub_stage_run.
  by cbn [print result disk_after events fst snd].
Qed.

(** X10. After a run of all formats whose HTML stage succeeded, the
    combined file is on the disk exactly when the EPUB attempt failed:
    a successful EPUB attempt deletes it, also when the PDF stage before
    it had failed and left its own combined file behind; a failed EPUB
    attempt leaves it there. *)
Theorem generate_all_leaves_combined_md_when_epub_fails
    (E : Env) (self : EbookGenerator) (d : FS) (html : string) :
  result (html_stage E self d) = Ok html ->
  let epub_attempt :=
    generate_epub E self (output_dir self // "laravel-book.epub")
      (disk_after (pdf_stage E self html (disk_after (html_stage E self d)))) in
  match result epub_attempt with
  | Ok _ => disk_after (generate_all E self d) !! combined_md_path self = None
  | Raise _ => is_Some (disk_after (generate_all E self d) !! combined_md_path self)
  end.
Proof.
  intros Hres. cbv zeta. rewrite (generate_all_disk E self d html Hres).
  pose proof (generate_epub_spec E self (output_dir self // "laravel-book.epub")
                (disk_after (pdf_stage E self html (disk_after (html_stage E self d))))
                I) as H.
  destruct (result (generate_epub _ _ _ _)); by destruct H.
Qed.

Lemma generate_all_leaves_combined_md_when_epub_fails_witness :
  is_Some (disk_after
             (pdf_stage pdf_failing_env default_generator
                (value_of (result (html_stage pdf_failing_env default_generator
                                     two_chapter_disk)))
                (disk_after (html_stage pdf_failing_env default_generator
                               two_chapter_disk)))
           !! ["ebook"; "combined.md"])
  /\ disk_after (generate_all pdf_failing_env default_generator two_chapter_disk)
       !! ["ebook"; "combined.md"] = None.
Proof.
  split; [vm_compute; by eexists|].
  pose proof (generate_all_leaves_combined_md_when_epub_fails
                pdf_failing_env default_generator two_chapter_disk
                (value_of (result (html_stage pdf_failing_env default_generator
                                     two_chapter_disk)))) as H.
  cbv zeta in H.
  assert (Hepub : result
            (generate_epub pdf_failing_env default_generator
               (output_dir default_generator // "laravel-book.epub")
               (disk_after
                  (pdf_stage pdf_failing_env default_generator
                     (value_of (result (html_stage pdf_failing_env default_generator
                                          two_chapter_disk)))
                     (disk_after (html_stage pdf_failing_env default_generator
                                    two_chapter_disk)))))
            = Ok tt) by by vm_compute.
  rewrite Hepub in H. apply H. by vm_compute.
Defined.

(** ** The command line *)






